(** * Work-time tracking bot: the daily-hours aggregation of [bot.py]

    A shallow embedding of [calculate_daily_hours] (and of the part of
    [take_break] that chooses the recorded event kind), followed by the
    properties of the session reconstruction, the duration formatting and
    the summary upsert.

    Modelling conventions.
    - Python [str] values are [string]s (sequences of bytes, UTF-8); the
      order Python uses to sort them, by code point, is then the
      lexicographic order on bytes.
    - A worksheet is the list of its data rows below the header, each row
      being the record [get_all_records] returns for it. Cells are strings,
      read back as they were written: the conversion of digit-only cells to
      numbers that the spreadsheet client applies is not modelled.
    - [total_seconds] is an integer: every value added to it is the
      difference of two whole-second datetimes, which a Python float holds
      exactly, and [//] and [%] on such floats are floor division and its
      remainder, as [Z.div] and [Z.modulo] are.
    - The two [datetime.date.today()] calls of one subtraction see the same
      day.
    - A Google Sheets call either completes or raises without effect; which
      of the calls of one aggregation raise is given by a [faults] record. *)

From Stdlib Require Import ZArith List String Ascii Bool Lia DecimalString.
Import ListNotations.

Local Open Scope string_scope.
Local Open Scope Z_scope.

(** ** Times of day and [strptime(_, '%H:%M:%S')] *)

Module Datetime.

Record time := mk { hour : Z; minute : Z; second : Z }.

Definition seconds_of_day (t : time) : Z :=
  3600 * hour t + 60 * minute t + second t.

(** [datetime.datetime.combine(day, t)], as seconds since an epoch. *)
Definition combine (day : Z) (t : time) : Z :=
  86400 * day + seconds_of_day t.

Definition digit_of (c : ascii) : option Z :=
  let n := Z.of_N (N_of_ascii c) in
  if (48 <=? n) && (n <=? 57) then Some (n - 48) else None.

(** One or two ASCII digits followed by the rest of the string: the
    directives [%H], [%M] and [%S] each take the longest of the two that
    lets the rest of the format match, and the next thing to match is
    never a digit. Digits of other scripts, which the directives also
    admit, are not modelled. *)
Definition field (s : string) : option (Z * string) :=
  match s with
  | String c1 rest1 =>
      match digit_of c1 with
      | None => None
      | Some d1 =>
          match rest1 with
          | String c2 rest2 =>
              match digit_of c2 with
              | Some d2 => Some (10 * d1 + d2, rest2)
              | None => Some (d1, rest1)
              end
          | EmptyString => Some (d1, rest1)
          end
      end
  | EmptyString => None
  end.

Definition colon (s : string) : option string :=
  match s with
  | String c rest => if Ascii.eqb c ":" then Some rest else None
  | EmptyString => None
  end.

(** [datetime.datetime.strptime(s, '%H:%M:%S').time()]; [None] stands for
    the [ValueError] of a string that does not match, has text left over,
    or names a second the [datetime] constructor refuses. *)
Definition strptime (s : string) : option time :=
  match field s with
  | None => None
  | Some (h, s1) =>
      match colon s1 with
      | None => None
      | Some s2 =>
          match field s2 with
          | None => None
          | Some (m, s3) =>
              match colon s3 with
              | None => None
              | Some s4 =>
                  match field s4 with
                  | Some (sec, EmptyString) =>
                      if (h <=? 23) && (m <=? 59) && (sec <=? 59)
                      then Some (mk h m sec) else None
                  | _ => None
                  end
              end
          end
      end
  end.

End Datetime.

(** ** Duration formatting (lines 148-154) *)

Module Format.

(** [str(n)] for a Python [int]. *)
Definition str (n : Z) : string := NilZero.string_of_int (Z.to_int n).

Fixpoint zeros (n : nat) : string :=
  match n with
  | O => EmptyString
  | S k => String "0" (zeros k)
  end.

(** The format specification [02d]: sign first, then zeros up to a total
    width of two. *)
Definition fmt_02d (n : Z) : string :=
  let digits := str (Z.abs n) in
  if n <? 0
  then "-" ++ zeros (1 - String.length digits) ++ digits
  else zeros (2 - String.length digits) ++ digits.

Definition format_duration (total_seconds : Z) : string :=
  let hours := total_seconds / 3600 in
  let minutes := (total_seconds mod 3600) / 60 in
  let seconds := total_seconds mod 60 in
  str hours ++ "h" ++ fmt_02d minutes ++ "m" ++ fmt_02d seconds ++ "s".

End Format.

(** ** Python outcomes and the worksheets *)

Module Py.

Inductive exn := ValueError | APIError | AttributeError.

(** What evaluating a Python expression or block gives: a value, or an
    exception (all three above are subclasses of [Exception]). *)
Inductive outcome (A : Type) : Type :=
| Returned (a : A)
| Raised (e : exn).
Arguments Returned {A} a.
Arguments Raised {A} e.

End Py.
Import Py.

(** Rows of the worksheet "Logs": [Nom], [Date], [Heure], [Evenement]. *)
Module Logs.
Record record := mk { Nom : string; Date : string; Heure : string; Evenement : string }.
End Logs.

(** Rows of the worksheet "Totaux": [Nom], [Date], [Heures Travaillees]. *)
Module Totaux.
Record record := mk { Nom : string; Date : string; Heures : string }.

Definition set_Heures (v : string) (r : record) : record :=
  mk (Nom r) (Date r) v.
End Totaux.

Module Sheets.

Inductive sheet := Logs_sheet | Totaux_sheet.

(** The calls made on a worksheet, as they reach the spreadsheet. *)
Inductive call :=
| Get_all_records (s : sheet)
| Update_cell (s : sheet) (row col : nat) (value : string)
| Append_row (s : sheet) (cells : list string).

Definition is_write (c : call) : bool :=
  match c with Get_all_records _ => false | _ => true end.

Definition target (c : call) : sheet :=
  match c with
  | Get_all_records s | Update_cell s _ _ _ | Append_row s _ => s
  end.

(** The globals [time_logs] and [daily_totals] ([None] until [on_ready]
    has connected), with the content of the worksheets they denote, and
    the calls made so far, oldest first. *)
Record world := mk_world {
  time_logs : option (list Logs.record);
  daily_totals : option (list Totaux.record);
  calls : list call
}.

Definition M (A : Type) : Type := world -> outcome A * world.

Definition ret {A} (a : A) : M A := fun w => (Returned a, w).

Definition bind {A B} (m : M A) (k : A -> M B) : M B :=
  fun w =>
    match m w with
    | (Returned a, w') => k a w'
    | (Raised e, w') => (Raised e, w')
    end.

Definition lift {A} (o : outcome A) : M A := fun w => (o, w).

(** [try: body / except Exception as e: handler]. *)
Definition try_except {A} (body : M A) (handler : exn -> M A) : M A :=
  fun w =>
    match body w with
    | (Returned a, w') => (Returned a, w')
    | (Raised e, w') => handler e w'
    end.

Definition record_call (c : call) (w : world) : world :=
  mk_world (time_logs w) (daily_totals w) (calls w ++ [c])%list.

(** [time_logs.get_all_records()] *)
Definition logs_get_all_records (fails : bool) : M (list Logs.record) :=
  fun w =>
    match time_logs w with
    | None => (Raised AttributeError, w)
    | Some rows =>
        let w' := record_call (Get_all_records Logs_sheet) w in
        if fails then (Raised APIError, w') else (Returned rows, w')
    end.

(** [daily_totals.get_all_records()] *)
Definition totals_get_all_records (fails : bool) : M (list Totaux.record) :=
  fun w =>
    match daily_totals w with
    | None => (Raised AttributeError, w)
    | Some rows =>
        let w' := record_call (Get_all_records Totaux_sheet) w in
        if fails then (Raised APIError, w') else (Returned rows, w')
    end.

Fixpoint update_nth {A} (n : nat) (f : A -> A) (l : list A) : option (list A) :=
  match l, n with
  | [], _ => None
  | x :: rest, O => Some (f x :: rest)
  | x :: rest, S k => option_map (cons x) (update_nth k f rest)
  end.

(** [daily_totals.update_cell(row, col, value)]. Row 1 is the header, so
    row [i] is the data row of index [i - 2]. The code only writes
    column 3 of a row it has just read; a cell anywhere else is modelled
    as refused. *)
Definition totals_update_cell (fails : bool) (row col : nat) (value : string)
  : M unit :=
  fun w =>
    match daily_totals w with
    | None => (Raised AttributeError, w)
    | Some rows =>
        let w' := record_call (Update_cell Totaux_sheet row col value) w in
        if fails then (Raised APIError, w') else
        if (2 <=? row)%nat && (col =? 3)%nat then
          match update_nth (row - 2) (Totaux.set_Heures value) rows with
          | Some rows' =>
              (Returned tt, mk_world (time_logs w') (Some rows') (calls w'))
          | None => (Raised APIError, w')
          end
        else (Raised APIError, w')
    end.

(** [daily_totals.append_row([nom, date, heures])] *)
Definition totals_append_row (fails : bool) (nom date heures : string)
  : M unit :=
  fun w =>
    match daily_totals w with
    | None => (Raised AttributeError, w)
    | Some rows =>
        let w' :=
          record_call (Append_row Totaux_sheet [nom; date; heures]) w in
        if fails then (Raised APIError, w') else
        (Returned tt,
         mk_world (time_logs w')
                  (Some (rows ++ [Totaux.mk nom date heures])%list) (calls w'))
    end.

End Sheets.
Import Sheets.

Declare Scope py_scope.
Delimit Scope py_scope with py.
Notation "x <- m ;; k" := (bind m (fun x => k))
  (at level 61, m at next level, right associativity) : py_scope.
Notation "m ;;; k" := (bind m (fun _ => k))
  (at level 61, right associativity) : py_scope.

(** ** The aggregation: [calculate_daily_hours] (lines 93-173) *)

Module Bot.

Import Datetime.
Local Open Scope string_scope.
Local Open Scope py_scope.

(** The local variables of the scan (lines 109-112). *)
Record state := mk_state {
  total_seconds : Z;
  current_session_start : option time;
  in_break : bool;
  break_start : option time
}.

Definition init : state := mk_state 0 None false None.

(** [(combine(today, a) - combine(today, b)).total_seconds()] *)
Definition session_seconds (today : Z) (a b : time) : Z :=
  combine today a - combine today b.

(** One iteration of the loop of lines 114-139. A [time] object is always
    true, midnight included, so the tests [if current_session_start] and
    [if break_start] are those of [is not None]. *)
Definition step (today : Z) (st : state) (record : Logs.record) : outcome state :=
  match strptime (Logs.Heure record) with
  | None => Raised ValueError
  | Some event_time =>
      if Logs.Evenement record =? "CHECK IN" then
        match current_session_start st with
        | None =>
            Returned (mk_state (total_seconds st) (Some event_time)
                               (in_break st) (break_start st))
        | Some _ => Returned st
        end
      else if Logs.Evenement record =? "BREAK" then
        match in_break st, current_session_start st with
        | false, Some start =>
            Returned (mk_state
                        (total_seconds st + session_seconds today event_time start)
                        (current_session_start st) true (Some event_time))
        | true, _ =>
            Returned (mk_state (total_seconds st) (Some event_time)
                               false (break_start st))
        | false, None => Returned st
        end
      else if Logs.Evenement record =? "CHECK OUT" then
        match current_session_start st, in_break st with
        | Some start, false =>
            Returned (mk_state
                        (total_seconds st + session_seconds today event_time start)
                        None (in_break st) (break_start st))
        | _, _ =>
            Returned (mk_state (total_seconds st) None
                               (in_break st) (break_start st))
        end
      else Returned st
  end.

(** The [for] loop. *)
Fixpoint scan (today : Z) (st : state) (records : list Logs.record)
  : outcome state :=
  match records with
  | [] => Returned st
  | record :: rest =>
      match step today st record with
      | Returned st' => scan today st' rest
      | Raised e => Raised e
      end
  end.

(** Lines 141-146: the user is still in a break at the end of the
    records. *)
Definition finish (today : Z) (st : state) : Z :=
  match in_break st, break_start st, current_session_start st with
  | true, Some b, Some start => total_seconds st + session_seconds today b start
  | _, _, _ => total_seconds st
  end.

(** [user_records.sort(key=lambda x: x['Heure'])]: a stable sort on the
    time strings. [insert] puts a record that came before all of
    [sorted] in front of the first one whose key is not smaller. *)
Fixpoint insert (r : Logs.record) (sorted : list Logs.record)
  : list Logs.record :=
  match sorted with
  | [] => [r]
  | x :: rest =>
      if String.ltb (Logs.Heure x) (Logs.Heure r)
      then x :: insert r rest
      else r :: x :: rest
  end.

Definition sort (records : list Logs.record) : list Logs.record :=
  fold_right insert [] records.

(** Lines 106-146: from the records of one user and day to the seconds
    worked. *)
Definition worked_seconds (today : Z) (user_records : list Logs.record)
  : outcome Z :=
  match scan today init (sort user_records) with
  | Returned st => Returned (finish today st)
  | Raised e => Raised e
  end.

Definition selects (username date_str : string) (r : Logs.record) : bool :=
  (Logs.Nom r =? username) && (Logs.Date r =? date_str).

Definition matches (username date_str : string) (entry : Totaux.record) : bool :=
  (Totaux.Nom entry =? username) && (Totaux.Date entry =? date_str).

(** Which of the worksheet calls of one aggregation raise. *)
Record faults := mk_faults {
  logs_read_fails : bool;
  totals_read_fails : bool;
  totals_write_fails : bool
}.

Definition no_faults : faults := mk_faults false false false.

(** Lines 160-164: [for i, entry in enumerate(existing_entries, start=2)],
    returning [entry_updated]. *)
Fixpoint update_existing (fl : faults) (username date_str formatted_time : string)
    (i : nat) (entries : list Totaux.record) : M bool :=
  match entries with
  | [] => ret false
  | entry :: rest =>
      if matches username date_str entry then
        totals_update_cell (totals_write_fails fl) i 3 formatted_time ;;;
        ret true
      else update_existing fl username date_str formatted_time (S i) rest
  end.

(** The block under [try] (lines 99-169). *)
Definition guarded (fl : faults) (today : Z) (username date_str : string)
  : M (option string) :=
  records <- logs_get_all_records (logs_read_fails fl) ;;
  let user_records := filter (selects username date_str) records in
  match user_records with
  | [] => ret None
  | _ :: _ =>
      total <- lift (worked_seconds today user_records) ;;
      let formatted_time := Format.format_duration total in
      existing_entries <- totals_get_all_records (totals_read_fails fl) ;;
      entry_updated <-
        update_existing fl username date_str formatted_time 2 existing_entries ;;
      (if entry_updated then ret tt
       else totals_append_row (totals_write_fails fl)
                              username date_str formatted_time) ;;;
      ret (Some formatted_time)
  end.

Definition calculate_daily_hours (fl : faults) (today : Z)
    (username date_str : string) : M (option string) :=
  fun w =>
    match time_logs w, daily_totals w with
    | Some _, Some _ =>
        try_except (guarded fl today username date_str)
                   (fun _ => ret None) w
    | _, _ => (Returned None, w)
    end.

(** [take_break] (lines 206-228): the event kind it hands to [log_event],
    from the rows of the user. *)
Definition is_break_mark (log : Logs.record) : bool :=
  (Logs.Evenement log =? "BREAK START") || (Logs.Evenement log =? "BREAK END").

Definition take_break_event (user_logs : list Logs.record) : string :=
  match find is_break_mark (rev user_logs) with
  | None => "BREAK START"
  | Some last_break =>
      if Logs.Evenement last_break =? "BREAK END"
      then "BREAK START" else "BREAK END"
  end.

End Bot.

(** ** Vocabulary of the statements *)

Module Spec.

Import Datetime Bot.
Local Open Scope string_scope.

(** A two-character decimal field. *)
Definition digit (n : Z) : ascii := ascii_of_N (Z.to_N (48 + n)).

Definition two_digits (n : Z) : string :=
  String (digit (n / 10)) (String (digit (n mod 10)) EmptyString).

(** The duration format as the specification words it: hours by floor
    division by 3600, minutes by floor division of the remainder by 60,
    seconds as the final remainder. *)
Definition format_spec (total_seconds : Z) : string :=
  let hours := total_seconds / 3600 in
  let remainder := total_seconds mod 3600 in
  let minutes := remainder / 60 in
  let seconds := remainder mod 60 in
  Format.str hours ++ "h" ++ two_digits minutes ++ "m"
    ++ two_digits seconds ++ "s".

(** Rows sorted by their time strings. *)
Fixpoint sorted (l : list Logs.record) : Prop :=
  match l with
  | [] => True
  | x :: rest =>
      Forall (fun y => String.ltb (Logs.Heure y) (Logs.Heure x) = false) rest
      /\ sorted rest
  end.

(** The events of balanced check-in/check-out pairs, from the pairs of
    their time strings. *)
Definition pair_events (username date_str : string)
    (pairs : list (string * string)) : list Logs.record :=
  flat_map (fun p => [Logs.mk username date_str (fst p) "CHECK IN";
                      Logs.mk username date_str (snd p) "CHECK OUT"]) pairs.

(** Sum over the pairs of (check-out time - check-in time), in seconds;
    [None] when a time string does not parse. *)
Fixpoint paired_total (pairs : list (string * string)) : option Z :=
  match pairs with
  | [] => Some 0
  | (t_in, t_out) :: rest =>
      match strptime t_in, strptime t_out, paired_total rest with
      | Some a, Some b, Some s =>
          Some ((seconds_of_day b - seconds_of_day a) + s)
      | _, _, _ => None
      end
  end.

(** The summary rows of one (user, date). *)
Definition rows_of (username date_str : string) (totals : list Totaux.record)
  : list Totaux.record :=
  filter (matches username date_str) totals.

(** Upsert on the rows: overwrite the duration of the first row of the
    key, [None] when there is none. *)
Fixpoint set_first (username date_str value : string)
    (entries : list Totaux.record) : option (list Totaux.record) :=
  match entries with
  | [] => None
  | entry :: rest =>
      if matches username date_str entry
      then Some (Totaux.set_Heures value entry :: rest)
      else option_map (cons entry) (set_first username date_str value rest)
  end.

Fixpoint first_match (username date_str : string)
    (entries : list Totaux.record) : option nat :=
  match entries with
  | [] => None
  | entry :: rest =>
      if matches username date_str entry then Some O
      else option_map S (first_match username date_str rest)
  end.

Definition upsert (username date_str value : string)
    (totals : list Totaux.record) : list Totaux.record :=
  match set_first username date_str value totals with
  | Some totals' => totals'
  | None => (totals ++ [Totaux.mk username date_str value])%list
  end.

(** The write an upsert issues. *)
Definition upsert_call (username date_str value : string)
    (totals : list Totaux.record) : call :=
  match first_match username date_str totals with
  | Some k => Update_cell Totaux_sheet (2 + k) 3 value
  | None => Append_row Totaux_sheet [username; date_str; value]
  end.

(** The rows of the user and day in the events table. *)
Definition user_records (username date_str : string) (w : world)
  : list Logs.record :=
  match time_logs w with
  | Some logs => filter (selects username date_str) logs
  | None => []
  end.

(** A fault during one aggregation: a worksheet call that raises, or a
    time string among the rows of the user and day that does not parse.
    The reads and the write of the summary table are only reached when
    there are such rows. *)
Definition fault (fl : faults) (username date_str : string) (w : world)
  : Prop :=
  time_logs w <> None /\ daily_totals w <> None /\
  (logs_read_fails fl = true
   \/ (exists r, In r (user_records username date_str w)
                 /\ strptime (Logs.Heure r) = None)
   \/ (user_records username date_str w <> []
       /\ (totals_read_fails fl = true \/ totals_write_fails fl = true))).

(** The events table replaced, as by rows appended between two
    aggregations; the summary table and the calls made are kept. *)
Definition with_time_logs (logs : list Logs.record) (w : world) : world :=
  mk_world (Some logs) (daily_totals w) (calls w).

(** The summary table holds at most one row for the user and day. *)
Definition at_most_one_row (username date_str : string) (w : world) : Prop :=
  forall totals,
    daily_totals w = Some totals ->
    (List.length (rows_of username date_str totals) <= 1)%nat.

End Spec.

(** ** A day of alice, used to run the model *)

Module Day.

Definition morning : list Logs.record :=
  [Logs.mk "alice" "2024-05-01" "09:00:00" "CHECK IN";
   Logs.mk "alice" "2024-05-01" "12:00:00" "CHECK OUT"].

Definition afternoon : list Logs.record :=
  [Logs.mk "alice" "2024-05-01" "13:00:00" "CHECK IN";
   Logs.mk "alice" "2024-05-01" "17:00:00" "CHECK OUT"].

(** Both worksheets connected, the morning logged, no summary for alice
    yet. *)
Definition at_noon : world :=
  mk_world (Some morning) (Some [Totaux.mk "bob" "2024-05-01" "8h00m00s"]) [].

(** After the aggregation of the check-out at noon. *)
Definition after_noon : world :=
  snd (Bot.calculate_daily_hours Bot.no_faults 19844 "alice" "2024-05-01"
         at_noon).

(** After the afternoon has been logged and aggregated. *)
Definition evening : world :=
  snd (Bot.calculate_daily_hours Bot.no_faults 19844 "alice" "2024-05-01"
         (Spec.with_time_logs (morning ++ afternoon)%list after_noon)).

End Day.

(** * Properties *)

Import Datetime Bot Spec.
Local Open Scope list_scope.

(** ** The clock and [log_event] (lines 71-91) *)

Module Clock.

Import Datetime.
Local Open Scope string_scope.

(** The fields of a [datetime] object are always in these ranges. *)
Definition valid (t : time) : Prop :=
  0 <= hour t <= 23 /\ 0 <= minute t <= 59 /\ 0 <= second t <= 59.

(** [strftime("%H:%M:%S")], on such fields: two digits each. *)
Definition strftime (t : time) : string :=
  Spec.two_digits (hour t) ++ ":" ++ Spec.two_digits (minute t) ++ ":"
    ++ Spec.two_digits (second t).

(** One reading of [datetime.datetime.now()]: the day, the text
    [strftime("%Y-%m-%d")] gives for it, and the time of day. *)
Record reading := mk_reading {
  today : Z;
  date_str : string;
  time_of_day : time
}.

(** A row whose time string is one the bot writes. *)
Definition written (r : Logs.record) : Prop :=
  exists t, valid t /\ Logs.Heure r = strftime t.

End Clock.

Module Frontend.

Import Datetime Bot Clock.
Local Open Scope string_scope.
Local Open Scope py_scope.

(** [time_logs.append_row([nom, date, heure, evenement])] *)
Definition logs_append_row (fails : bool) (nom date heure evenement : string)
  : M unit :=
  fun w =>
    match time_logs w with
    | None => (Raised AttributeError, w)
    | Some rows =>
        let w' :=
          record_call (Append_row Logs_sheet [nom; date; heure; evenement]) w in
        if fails then (Raised APIError, w') else
        (Returned tt,
         mk_world (Some (rows ++ [Logs.mk nom date heure evenement])%list)
                  (daily_totals w') (calls w'))
    end.

(** [log_event] (lines 71-91). [append_fails] tells whether the
    [append_row] raises and [fl] which calls of the aggregation do. The
    value of [calculate_daily_hours] is dropped. *)
Definition log_event (append_fails : bool) (fl : faults) (now : reading)
    (username event_type : string) : M bool :=
  try_except
    (logs_append_row append_fails username (date_str now)
                     (strftime (time_of_day now)) event_type ;;;
     (if event_type =? "CHECK OUT"
      then calculate_daily_hours fl (today now) username (date_str now) ;;;
           ret tt
      else ret tt) ;;;
     ret true)
    (fun _ => ret false).

(** [take_break] (lines 206-228), up to the message it sends: the value is
    that of [log_event], which selects the message. The read of the events
    is not under a [try]. *)
Definition take_break (read_fails append_fails : bool) (fl : faults)
    (now : reading) (author : string) : M bool :=
  user_logs <- logs_get_all_records read_fails ;;
  let user_logs := filter (fun log => Logs.Nom log =? author) user_logs in
  log_event append_fails fl now author (take_break_event user_logs).

(** [status], lines 263-268: the summary row shown for the author and the
    day. *)
Definition status_today_total (author today : string)
    (daily_records : list Totaux.record) : option Totaux.record :=
  find (matches author today) daily_records.

(** The row [log_event] writes. *)
Definition logged_row (now : reading) (username event_type : string)
  : Logs.record :=
  Logs.mk username (date_str now) (strftime (time_of_day now)) event_type.

(** Rows of a kind other than "BREAK", the kind no command records. *)
Definition no_break_tag (r : Logs.record) : Prop :=
  Logs.Evenement r <> "BREAK".

End Frontend.

(** ** [load_config] (lines 11-25) *)

Module Config.

Local Open Scope string_scope.

(** A Python dict with string keys, as the list of its items. *)
Definition dict (V : Type) : Type := list (string * V).

(** [d[k] = v] *)
Fixpoint set {V} (k : string) (v : V) (d : dict V) : dict V :=
  match d with
  | [] => [(k, v)]
  | (k', v') :: rest =>
      if k' =? k then (k, v) :: rest else (k', v') :: set k v rest
  end.

(** [d.get(k)]; [None] when the key is absent. *)
Definition get {V} (k : string) (d : dict V) : option V :=
  match find (fun item => fst item =? k) d with
  | Some item => Some (snd item)
  | None => None
  end.

(** [d.update(items)] *)
Definition update {V} (d items : dict V) : dict V :=
  fold_left (fun acc item => set (fst item) (snd item) acc) items d.

(** What [open('config.json')] and [json.load] give: no such file, the
    items of a JSON object (a [null] value is [None]), or the exception
    they raise on anything else. *)
Inductive config_file (V : Type) : Type :=
| Missing
| Object (file_config : dict (option V))
| Unreadable (e : exn).
Arguments Missing {V}.
Arguments Object {V} file_config.
Arguments Unreadable {V} e.

Definition is_not_None {V} (item : string * option V) : bool :=
  match snd item with Some _ => true | None => false end.

(** [load_config]; [getenv] is [os.getenv]. *)
Definition load_config {V} (getenv : string -> option V) (file : config_file V)
  : outcome (dict (option V)) :=
  let config := [("DISCORD_TOKEN", getenv "DISCORD_TOKEN");
                 ("SHEET_URL", getenv "SHEET_URL")] in
  match file with
  | Missing => Returned config
  | Object file_config =>
      Returned (update config (filter is_not_None file_config))
  | Unreadable e => Raised e
  end.

End Config.

(** ** Runs of the parser and of the formatter *)

Example strptime_padded : strptime "09:00:00" = Some (mk 9 0 0).
Proof. reflexivity. Qed.

Example strptime_unpadded : strptime "9:5:7" = Some (mk 9 5 7).
Proof. reflexivity. Qed.

Example strptime_refused :
  map strptime ["24:00:00"; "09:00"; "09:00:60"; "09:00:00 "; "009:00:00";
                ""; "ab:cd:ef"; "17h00"]
  = [None; None; None; None; None; None; None; None].
Proof. reflexivity. Qed.

Example format_negative : Format.format_duration (-1) = "-1h59m59s".
Proof. reflexivity. Qed.

(** Unpadded hours sort as strings, not as times. *)
Example sort_by_string :
  map Logs.Heure
      (sort [Logs.mk "alice" "2024-05-01" "9:00:00" "CHECK IN";
             Logs.mk "alice" "2024-05-01" "17:00:00" "CHECK OUT"])
  = ["17:00:00"; "9:00:00"].
Proof. reflexivity. Qed.

(** ** Order on time strings and the stable sort *)

Section StringOrder.

Lemma compare_lt_trans :
  forall a b c : string,
    String.compare a b = Lt -> String.compare b c = Lt ->
    String.compare a c = Lt.
Proof.
  induction a as [|x a IH]; intros [|y b] [|z c]; simpl; try congruence.
  unfold Ascii.compare.
  destruct (N.compare_spec (N_of_ascii x) (N_of_ascii y)) as [Hxy|Hxy|Hxy];
    destruct (N.compare_spec (N_of_ascii y) (N_of_ascii z)) as [Hyz|Hyz|Hyz];
    try congruence; intros H1 H2.
  - rewrite Hxy, Hyz, N.compare_refl. eauto.
  - rewrite Hxy. apply N.compare_lt_iff in Hyz. now rewrite Hyz.
  - rewrite <- Hyz. apply N.compare_lt_iff in Hxy. now rewrite Hxy.
  - assert (Hxz : (N_of_ascii x < N_of_ascii z)%N) by lia.
    apply N.compare_lt_iff in Hxz. now rewrite Hxz.
Qed.

(** [a <= b] and [b <= c] give [a <= c], with [x <= y] read as "not
    [y < x]", the only test the sort makes. *)
Lemma not_ltb_trans :
  forall a b c : string,
    String.ltb b a = false -> String.ltb c b = false ->
    String.ltb c a = false.
Proof.
  unfold String.ltb. intros a b c Hba Hcb.
  destruct (String.compare c a) eqn:Hca; auto.
  destruct (String.compare c b) eqn:E; try discriminate.
  - apply String.compare_eq_iff in E. subst. now rewrite Hca in Hba.
  - rewrite String.compare_antisym in E.
    destruct (String.compare b c) eqn:Hbc; try discriminate.
    now rewrite (compare_lt_trans _ _ _ Hbc Hca) in Hba.
Qed.

Lemma ltb_asym :
  forall a b : string, String.ltb a b = true -> String.ltb b a = false.
Proof.
  unfold String.ltb. intros a b. rewrite (String.compare_antisym b a).
  destruct (String.compare a b); simpl; congruence.
Qed.

End StringOrder.

Section StableSort.

Lemma insert_Forall (P : Logs.record -> Prop) r l :
  P r -> Forall P l -> Forall P (insert r l).
Proof.
  intros Hr Hl. induction Hl as [|x l Hx Hl IH]; simpl.
  - now constructor.
  - destruct (String.ltb (Logs.Heure x) (Logs.Heure r)); auto.
Qed.

Lemma insert_sorted r l : sorted l -> sorted (insert r l).
Proof.
  induction l as [|x l IH]; simpl.
  - intros _. split; [constructor | exact I].
  - intros [Hx Hl].
    destruct (String.ltb (Logs.Heure x) (Logs.Heure r)) eqn:E; simpl.
    + split; [| now apply IH].
      apply insert_Forall; [now apply ltb_asym | assumption].
    + repeat split; try assumption.
      constructor; [assumption |].
      eapply Forall_impl; [| exact Hx].
      intros y Hy. simpl in Hy. eapply not_ltb_trans; eassumption.
Qed.

Lemma sort_sorted l : sorted (sort l).
Proof.
  induction l as [|x l IH]; simpl; [exact I | now apply insert_sorted].
Qed.

(** Inserting in front of rows that are not smaller puts the row first. *)
Lemma insert_least r l :
  Forall (fun y => String.ltb (Logs.Heure y) (Logs.Heure r) = false) l ->
  insert r l = r :: l.
Proof.
  intros H. destruct H as [|x l Hx _]; simpl; [reflexivity |].
  now rewrite Hx.
Qed.

(** Rows already in time order, ties included, stay as they are. *)
Lemma sort_sorted_id l : sorted l -> sort l = l.
Proof.
  induction l as [|x l IH]; simpl; [reflexivity |].
  intros [Hx Hl]. rewrite (IH Hl). now apply insert_least.
Qed.

Lemma filter_insert (p : Logs.record -> bool) r l :
  sorted l ->
  filter p (insert r l) =
  if p r then insert r (filter p l) else filter p l.
Proof.
  induction l as [|x l IH]; simpl.
  - intros _. now destruct (p r).
  - intros [Hx Hl].
    destruct (String.ltb (Logs.Heure x) (Logs.Heure r)) eqn:E; simpl.
    + rewrite (IH Hl). destruct (p x), (p r); simpl; try reflexivity.
      now rewrite E.
    + destruct (p r) eqn:Hr, (p x) eqn:Hpx; simpl; try reflexivity.
      * now rewrite E.
      * symmetry. apply insert_least.
        apply Forall_forall. intros y Hy.
        apply filter_In in Hy. destruct Hy as [Hy _].
        rewrite Forall_forall in Hx. specialize (Hx y Hy). simpl in Hx.
        eapply not_ltb_trans; eassumption.
Qed.

(** The sort is stable, so it commutes with dropping rows. *)
Lemma sort_filter (p : Logs.record -> bool) l :
  sort (filter p l) = filter p (sort l).
Proof.
  induction l as [|x l IH]; simpl; [reflexivity |].
  rewrite filter_insert by apply sort_sorted.
  destruct (p x); simpl; now rewrite IH.
Qed.

Lemma insert_In r x l : In x (insert r l) <-> x = r \/ In x l.
Proof.
  induction l as [|y l IH]; simpl.
  - intuition.
  - destruct (String.ltb (Logs.Heure y) (Logs.Heure r)); simpl;
      rewrite ?IH; intuition.
Qed.

Lemma sort_In x l : In x (sort l) <-> In x l.
Proof.
  induction l as [|y l IH]; simpl; [tauto |].
  rewrite insert_In, IH. intuition.
Qed.

End StableSort.

(** ** The scan *)

Section Scan.

Variable today : Z.

Lemma session_seconds_of_day a b :
  session_seconds today a b = seconds_of_day a - seconds_of_day b.
Proof. unfold session_seconds, combine. lia. Qed.

(** A row of a kind the scan has no branch for leaves the state as it is,
    once its time has parsed. *)
Lemma step_break_mark st r :
  is_break_mark r = true ->
  step today st r =
  match strptime (Logs.Heure r) with
  | Some _ => Returned st
  | None => Raised ValueError
  end.
Proof.
  unfold is_break_mark, step. intros H.
  destruct (strptime (Logs.Heure r)); [| reflexivity].
  apply orb_true_iff in H.
  destruct H as [H|H]; apply String.eqb_eq in H; rewrite H; reflexivity.
Qed.

Lemma scan_without_break_marks l : forall st st',
  scan today st l = Returned st' ->
  scan today st (filter (fun r => negb (is_break_mark r)) l) = Returned st'.
Proof.
  induction l as [|r l IH]; intros st st' H; simpl in *; [assumption |].
  destruct (is_break_mark r) eqn:Hr; simpl.
  - rewrite (step_break_mark st r Hr) in H.
    destruct (strptime (Logs.Heure r)); [now apply IH | discriminate].
  - destruct (step today st r); [now apply IH | discriminate].
Qed.

(** With the times of the ignored rows well formed, as the bot writes
    them, the scan with and without these rows is the same, failures
    included. *)
Lemma scan_break_marks_parsed l : forall st,
  Forall (fun r => is_break_mark r = true ->
                   strptime (Logs.Heure r) <> None) l ->
  scan today st (filter (fun r => negb (is_break_mark r)) l)
  = scan today st l.
Proof.
  induction l as [|r l IH]; intros st H; simpl; [reflexivity |].
  inversion H as [|? ? Hr Hl]; subst.
  destruct (is_break_mark r) eqn:E; simpl.
  - rewrite (step_break_mark st r E).
    destruct (strptime (Logs.Heure r)); [now apply IH |].
    now specialize (Hr eq_refl).
  - destruct (step today st r); [now apply IH | reflexivity].
Qed.

(** A malformed time anywhere in the rows aborts the scan. *)
Lemma scan_malformed l : forall st r,
  In r l -> strptime (Logs.Heure r) = None ->
  exists e, scan today st l = Raised e.
Proof.
  induction l as [|x l IH]; intros st r Hin Hr; [contradiction |].
  simpl. destruct (step today st x) as [st'|e] eqn:E; [| now exists e].
  destruct Hin as [->|Hin]; [| now apply (IH st' r)].
  unfold step in E. rewrite Hr in E. discriminate.
Qed.



End Scan.

(** The day the clock shows plays no part in the result. *)
Section Today.

Variables today today' : Z.

Lemma session_seconds_today a b :
  session_seconds today a b = session_seconds today' a b.
Proof. now rewrite !session_seconds_of_day. Qed.

Lemma step_today st r : step today st r = step today' st r.
Proof.
  unfold step. destruct (strptime (Logs.Heure r)) as [t|]; [| reflexivity].
  destruct (current_session_start st) as [s|];
    now rewrite ?(session_seconds_today t s).
Qed.

Lemma scan_today l : forall st, scan today st l = scan today' st l.
Proof.
  induction l as [|r l IH]; intros st; simpl; [reflexivity |].
  rewrite step_today. destruct (step today' st r); [apply IH | reflexivity].
Qed.

Lemma finish_today st : finish today st = finish today' st.
Proof.
  unfold finish.
  destruct (in_break st), (break_start st) as [b|],
    (current_session_start st) as [s|]; try reflexivity.
  now rewrite (session_seconds_today b s).
Qed.

Lemma worked_seconds_today l :
  worked_seconds today l = worked_seconds today' l.
Proof.
  unfold worked_seconds. rewrite scan_today.
  destruct (scan today' init (sort l)); [| reflexivity].
  now rewrite finish_today.
Qed.

End Today.

(** ** Formatting *)

Section Formatting.

Lemma fmt_02d_table :
  forallb (fun k => (Format.fmt_02d (Z.of_nat k) =? two_digits (Z.of_nat k))%string)
          (seq 0 100) = true.
Proof. vm_compute. reflexivity. Qed.

(** On 0..99 the format [02d] gives exactly two decimal digits. *)
Lemma fmt_02d_two_digits n :
  0 <= n < 100 -> Format.fmt_02d n = two_digits n.
Proof.
  intros Hn. pose proof fmt_02d_table as H.
  rewrite forallb_forall in H.
  specialize (H (Z.to_nat n)).
  rewrite Z2Nat.id in H by lia.
  apply String.eqb_eq, H, in_seq. lia.
Qed.

Lemma minutes_range total : 0 <= (total mod 3600) / 60 < 60.
Proof.
  pose proof (Z.mod_pos_bound total 3600 ltac:(lia)) as H.
  split; [apply Z.div_pos; lia | apply Z.div_lt_upper_bound; lia].
Qed.

Lemma seconds_range total : 0 <= total mod 60 < 60.
Proof. apply Z.mod_pos_bound. lia. Qed.

(** The final remainder is the remainder by 60 of the total. *)
Lemma final_remainder total : (total mod 3600) mod 60 = total mod 60.
Proof.
  replace 3600 with (60 * 60) by reflexivity.
  rewrite Z.rem_mul_r by lia.
  rewrite (Z.mul_comm 60 ((total / 60) mod 60)), Z.mod_add by lia.
  apply Z.mod_mod. lia.
Qed.

Lemma duration_decomposition total :
  total = 3600 * (total / 3600) + 60 * ((total mod 3600) / 60) + total mod 60.
Proof.
  rewrite <- (final_remainder total).
  pose proof (Z.div_mod total 3600 ltac:(lia)).
  pose proof (Z.div_mod (total mod 3600) 60 ltac:(lia)).
  lia.
Qed.

Lemma format_duration_format_spec total :
  Format.format_duration total = format_spec total.
Proof.
  unfold Format.format_duration, format_spec. cbv zeta.
  rewrite final_remainder.
  rewrite (fmt_02d_two_digits ((total mod 3600) / 60))
    by (pose proof (minutes_range total); lia).
  rewrite (fmt_02d_two_digits (total mod 60))
    by (pose proof (seconds_range total); lia).
  reflexivity.
Qed.

End Formatting.

(** ** The upsert on the summary table *)

Section Upsert.

Variables (fl : faults) (username date_str value : string).

Lemma update_nth_middle {A} (f : A -> A) pre x rest :
  update_nth (List.length pre) f (pre ++ x :: rest) = Some (pre ++ f x :: rest).
Proof.
  induction pre as [|y pre IH]; simpl; [reflexivity |]. now rewrite IH.
Qed.

Lemma first_match_set_first entries :
  match first_match username date_str entries with
  | Some _ => set_first username date_str value entries <> None
  | None => set_first username date_str value entries = None
  end.
Proof.
  induction entries as [|e rest IH]; simpl; [reflexivity |].
  destruct (matches username date_str e); [discriminate |].
  destruct (first_match username date_str rest),
    (set_first username date_str value rest); simpl; congruence.
Qed.

(** The loop of lines 160-164, started at row [i] on the entries that
    follow the rows [pre] already passed. *)
Lemma update_existing_run entries : forall pre i w,
  daily_totals w = Some (pre ++ entries) ->
  i = (2 + List.length pre)%nat ->
  update_existing fl username date_str value i entries w =
  match first_match username date_str entries,
        set_first username date_str value entries with
  | Some k, Some entries' =>
      let w1 := record_call (Update_cell Totaux_sheet (i + k) 3 value) w in
      if totals_write_fails fl then (Raised APIError, w1)
      else (Returned true,
            mk_world (time_logs w) (Some (pre ++ entries')) (calls w1))
  | _, _ => (Returned false, w)
  end.
Proof.
  induction entries as [|e rest IH]; intros pre i w Hw Hi; simpl;
    [reflexivity |].
  destruct (matches username date_str e) eqn:Hm.
  - unfold bind, totals_update_cell. rewrite Hw, Nat.add_0_r.
    destruct (totals_write_fails fl); [reflexivity |].
    replace (2 <=? i)%nat with true by (symmetry; apply Nat.leb_le; lia).
    simpl. replace (i - 2)%nat with (List.length pre) by lia.
    rewrite update_nth_middle. reflexivity.
  - rewrite (IH (pre ++ [e]) (S i) w).
    + pose proof (first_match_set_first rest) as Hfs.
      destruct (first_match username date_str rest) as [k|],
        (set_first username date_str value rest) as [new|]; simpl;
        try congruence.
      rewrite <- app_assoc. simpl. now rewrite Nat.add_succ_r.
    + now rewrite <- app_assoc.
    + rewrite length_app. simpl. lia.
Qed.

Lemma set_first_rows entries entries' :
  set_first username date_str value entries = Some entries' ->
  exists r rest,
    rows_of username date_str entries = r :: rest /\
    rows_of username date_str entries' = Totaux.set_Heures value r :: rest.
Proof.
  revert entries'. induction entries as [|e l IH]; intros entries' H;
    simpl in *; [discriminate |].
  destruct (matches username date_str e) eqn:Hm.
  - injection H as <-. exists e, (rows_of username date_str l).
    split; [reflexivity |]. simpl.
    unfold matches in *. simpl. now rewrite Hm.
  - destruct (set_first username date_str value l) as [l'|]; [| discriminate].
    injection H as <-. simpl. rewrite Hm. now apply IH.
Qed.

Lemma set_first_none_rows entries :
  set_first username date_str value entries = None ->
  rows_of username date_str entries = [].
Proof.
  induction entries as [|e l IH]; simpl; [reflexivity |].
  destruct (matches username date_str e); [discriminate |].
  destruct (set_first username date_str value l); [discriminate | auto].
Qed.

Lemma matches_eq entry :
  matches username date_str entry = true ->
  Totaux.set_Heures value entry = Totaux.mk username date_str value.
Proof.
  unfold matches, Totaux.set_Heures. intros H.
  apply andb_true_iff in H. destruct H as [H1 H2].
  apply String.eqb_eq in H1, H2. now rewrite H1, H2.
Qed.

Lemma matches_refl v : matches username date_str (Totaux.mk username date_str v) = true.
Proof. unfold matches. simpl. now rewrite !String.eqb_refl. Qed.

(** After an upsert the key has the rows it had, the first one holding
    the new value, or the single new row when it had none. *)
Lemma upsert_rows totals :
  rows_of username date_str (upsert username date_str value totals) =
  match rows_of username date_str totals with
  | [] => [Totaux.mk username date_str value]
  | _ :: rest => Totaux.mk username date_str value :: rest
  end.
Proof.
  unfold upsert.
  destruct (set_first username date_str value totals) as [totals'|] eqn:E.
  - destruct (set_first_rows _ _ E) as (r & rest & H1 & H2).
    rewrite H1, H2. f_equal. apply matches_eq.
    assert (Hin : In r (rows_of username date_str totals))
      by (rewrite H1; now left).
    now apply filter_In in Hin.
  - rewrite (set_first_none_rows _ E).
    unfold rows_of. rewrite filter_app. simpl.
    fold (rows_of username date_str totals).
    rewrite (set_first_none_rows _ E), matches_refl. reflexivity.
Qed.

(** Writing the value the first row of the key already holds changes
    nothing. *)
Lemma set_first_again entries entries' :
  set_first username date_str value entries = Some entries' ->
  set_first username date_str value entries' = Some entries'.
Proof.
  revert entries'. induction entries as [|e l IH]; intros entries' H;
    simpl in *; [discriminate |].
  destruct (matches username date_str e) eqn:Hm.
  - injection H as <-. simpl.
    unfold matches in *. simpl. now rewrite Hm.
  - destruct (set_first username date_str value l) as [l'|]; [| discriminate].
    injection H as <-. simpl. rewrite Hm. now rewrite (IH l' eq_refl).
Qed.

Lemma set_first_app_new entries :
  set_first username date_str value entries = None ->
  set_first username date_str value
    (entries ++ [Totaux.mk username date_str value]) =
  Some (entries ++ [Totaux.mk username date_str value]).
Proof.
  induction entries as [|e l IH]; simpl.
  - intros _. now rewrite matches_refl.
  - destruct (matches username date_str e); [discriminate |].
    destruct (set_first username date_str value l); [discriminate |].
    intros _. now rewrite IH.
Qed.

Lemma upsert_idempotent totals :
  upsert username date_str value (upsert username date_str value totals) =
  upsert username date_str value totals.
Proof.
  unfold upsert at 2 3.
  destruct (set_first username date_str value totals) as [totals'|] eqn:E;
    unfold upsert.
  - now rewrite (set_first_again _ _ E).
  - now rewrite (set_first_app_new _ E).
Qed.

End Upsert.

(** ** One run of the aggregation *)

Section Run.

Variables (fl : faults) (today : Z) (username date_str : string).

(** The block under [try], call by call, in a world where both
    worksheets are connected. *)
Lemma guarded_run w logs totals :
  time_logs w = Some logs -> daily_totals w = Some totals ->
  guarded fl today username date_str w =
  let w1 := record_call (Get_all_records Logs_sheet) w in
  if logs_read_fails fl then (Raised APIError, w1) else
  match filter (selects username date_str) logs with
  | [] => (Returned None, w1)
  | r :: rs =>
      match worked_seconds today (r :: rs) with
      | Raised e => (Raised e, w1)
      | Returned total =>
          let value := Format.format_duration total in
          let w2 := record_call (Get_all_records Totaux_sheet) w1 in
          if totals_read_fails fl then (Raised APIError, w2) else
          let w3 :=
            record_call (upsert_call username date_str value totals) w2 in
          if totals_write_fails fl then (Raised APIError, w3) else
          (Returned (Some value),
           mk_world (Some logs)
                    (Some (upsert username date_str value totals))
                    (calls w3))
      end
  end.
Proof.
  intros Hlogs Htotals.
  unfold guarded, bind at 1, logs_get_all_records. rewrite Hlogs. cbv zeta.
  destruct (logs_read_fails fl); [reflexivity |].
  destruct (filter (selects username date_str) logs) as [|r rs];
    [reflexivity |].
  unfold bind at 1, lift.
  destruct (worked_seconds today (r :: rs)) as [total|e]; [| reflexivity].
  unfold bind at 1, totals_get_all_records. simpl daily_totals.
  rewrite Htotals.
  destruct (totals_read_fails fl) eqn:Hread; [reflexivity |].
  set (w2 := record_call _ (record_call _ w)).
  unfold bind at 1.
  rewrite (update_existing_run fl username date_str _ totals [] 2 w2)
    by (simpl; auto).
  unfold upsert_call, upsert.
  pose proof (first_match_set_first username date_str
                (Format.format_duration total) totals) as Hfs.
  destruct (first_match username date_str totals) as [k|],
    (set_first username date_str (Format.format_duration total) totals)
    as [totals'|]; try congruence; cbv zeta.
  - destruct (totals_write_fails fl); [reflexivity |].
    unfold bind, ret. simpl. now rewrite Hlogs.
  - unfold bind, ret, totals_append_row. simpl. rewrite Htotals.
    destruct (totals_write_fails fl); [reflexivity |].
    simpl. now rewrite Hlogs.
Qed.

(** [calculate_daily_hours] hands every exception of the guarded block
    back as [None]. *)
Lemma calculate_returns w :
  exists r w', calculate_daily_hours fl today username date_str w
               = (Returned r, w').
Proof.
  unfold calculate_daily_hours, try_except, ret.
  destruct (time_logs w), (daily_totals w); eauto.
  destruct (guarded fl today username date_str w) as [[r|e] w']; eauto.
Qed.

Lemma calculate_connected w logs totals :
  time_logs w = Some logs -> daily_totals w = Some totals ->
  calculate_daily_hours fl today username date_str w =
  match guarded fl today username date_str w with
  | (Returned r, w') => (Returned r, w')
  | (Raised _, w') => (Returned None, w')
  end.
Proof.
  intros H1 H2. unfold calculate_daily_hours, try_except, ret.
  rewrite H1, H2. reflexivity.
Qed.

(** What a run leaves behind: the events table as it was; the summary
    table as it was, or upserted with the value returned; at most one
    more write call, on the summary table. *)
Lemma calculate_effect w r w' :
  calculate_daily_hours fl today username date_str w = (Returned r, w') ->
  time_logs w' = time_logs w /\
  (match r with
   | None => daily_totals w' = daily_totals w
   | Some value =>
       exists totals total,
         daily_totals w = Some totals /\
         daily_totals w' = Some (upsert username date_str value totals) /\
         worked_seconds today (user_records username date_str w)
           = Returned total /\
         user_records username date_str w <> [] /\
         value = Format.format_duration total
   end) /\
  exists new,
    calls w' = calls w ++ new /\
    (List.length (filter is_write new) <= 1)%nat /\
    Forall (fun c => is_write c = true -> target c = Totaux_sheet) new.
Proof.
  destruct (time_logs w) as [logs|] eqn:Hlogs.
  2: { unfold calculate_daily_hours. rewrite Hlogs.
       intros H. injection H as <- <-. rewrite Hlogs.
       repeat split. exists []. rewrite app_nil_r. simpl. auto. }
  destruct (daily_totals w) as [totals|] eqn:Htotals.
  2: { unfold calculate_daily_hours. rewrite Hlogs, Htotals.
       intros H. injection H as <- <-. rewrite Hlogs, Htotals.
       repeat split. exists []. rewrite app_nil_r. simpl. auto. }
  rewrite (calculate_connected w logs totals Hlogs Htotals).
  rewrite (guarded_run w logs totals Hlogs Htotals). cbv zeta.
  unfold user_records. rewrite Hlogs.
  assert (Hget : forall s, Forall (fun c => is_write c = true ->
                   target c = Totaux_sheet) [Get_all_records s])
    by (intros s; constructor; [discriminate | constructor]).
  destruct (logs_read_fails fl).
  { intros H. injection H as <- <-. simpl. rewrite Hlogs, Htotals.
    repeat split. eexists. split; [reflexivity |]. split; simpl; auto. }
  destruct (filter (selects username date_str) logs) as [|x xs] eqn:Hf.
  { intros H. injection H as <- <-. simpl. rewrite Hlogs, Htotals.
    repeat split. eexists. split; [reflexivity |]. split; simpl; auto. }
  destruct (worked_seconds today (x :: xs)) as [total|e] eqn:Hws.
  2: { intros H. injection H as <- <-. simpl. rewrite Hlogs, Htotals.
       repeat split. eexists. split; [reflexivity |]. split; simpl; auto. }
  assert (Hup : forall v, is_write (upsert_call username date_str v totals) = true
                /\ target (upsert_call username date_str v totals) = Totaux_sheet)
    by (intros v; unfold upsert_call;
        destruct (first_match username date_str totals); simpl; auto).
  destruct (totals_read_fails fl).
  { intros H. injection H as <- <-. simpl. rewrite Hlogs, Htotals.
    repeat split. eexists. split; [now rewrite <- app_assoc |].
    split; [simpl; lia |]. repeat constructor; discriminate. }
  destruct (totals_write_fails fl).
  { intros H. injection H as <- <-. simpl. rewrite Hlogs, Htotals.
    repeat split. eexists. split; [now rewrite <- !app_assoc |].
    simpl. destruct (Hup (Format.format_duration total)) as [-> Ht].
    split; [simpl; lia |]. repeat constructor; auto; discriminate. }
  intros H. injection H as <- <-. simpl.
  split; [reflexivity |]. split.
  { exists totals, total. repeat split; auto. discriminate. }
  eexists. split; [now rewrite <- !app_assoc |].
  simpl. destruct (Hup (Format.format_duration total)) as [-> Ht].
  split; [simpl; lia |]. repeat constructor; auto; discriminate.
Qed.


End Run.

(** ** Properties of the aggregation *)

(** C1. The events [CHECK IN 09:00:00, BREAK 12:00:00], with nothing after
    them, are expected to give "3h00m00s", the interval before the break
    counted once. The code returns "6h00m00s": the break closes the interval
    (line 126) but leaves [current_session_start] set, so the block for a
    break still open at the end of the records (lines 142-146) adds the same
    interval a second time. *)
Theorem dangling_break_counted_twice :
  forall today username date_str,
    let records := [Logs.mk username date_str "09:00:00" "CHECK IN";
                    Logs.mk username date_str "12:00:00" "BREAK"] in
    scan today init records
      = Returned (mk_state 10800 (Some (mk 9 0 0)) true (Some (mk 12 0 0))) /\
    worked_seconds today records = Returned 21600 /\
    fst (calculate_daily_hours no_faults today username date_str
           (mk_world (Some records) (Some []) []))
      = Returned (Some "6h00m00s") /\
    "6h00m00s" <> "3h00m00s".
Proof.
  intros today username date_str records.
  assert (Hw : worked_seconds today records = Returned 21600)
    by (rewrite (worked_seconds_today today 0); vm_compute; reflexivity).
  split; [rewrite (scan_today today 0); vm_compute; reflexivity |].
  split; [exact Hw |]. split; [| discriminate].
  set (w := mk_world (Some records) (Some []) []).
  rewrite (calculate_connected _ _ _ _ w records [] eq_refl eq_refl).
  rewrite (guarded_run _ _ _ _ w records [] eq_refl eq_refl). cbv zeta.
  subst w records. unfold selects. simpl filter. rewrite !String.eqb_refl.
  cbn [andb]. rewrite Hw. reflexivity.
Qed.

(** C2. The events [CHECK IN 09:00:00, BREAK 12:00:00, BREAK 12:30:00,
    CHECK OUT 17:00:00] give "7h30m00s": the first BREAK adds the three hours
    since the check-in and enters the break, the second leaves the break and
    opens a session at 12:30, the check-out adds the remaining four and a
    half hours. *)
Theorem toggle_break_7h30 :
  forall today username date_str,
    let ci := Logs.mk username date_str "09:00:00" "CHECK IN" in
    let b1 := Logs.mk username date_str "12:00:00" "BREAK" in
    let b2 := Logs.mk username date_str "12:30:00" "BREAK" in
    let co := Logs.mk username date_str "17:00:00" "CHECK OUT" in
    scan today init [ci]
      = Returned (mk_state 0 (Some (mk 9 0 0)) false None) /\
    scan today init [ci; b1]
      = Returned (mk_state 10800 (Some (mk 9 0 0)) true (Some (mk 12 0 0))) /\
    scan today init [ci; b1; b2]
      = Returned (mk_state 10800 (Some (mk 12 30 0)) false (Some (mk 12 0 0))) /\
    scan today init [ci; b1; b2; co]
      = Returned (mk_state (10800 + 16200) None false (Some (mk 12 0 0))) /\
    worked_seconds today [ci; b1; b2; co] = Returned 27000 /\
    fst (calculate_daily_hours no_faults today username date_str
           (mk_world (Some [ci; b1; b2; co]) (Some []) []))
      = Returned (Some "7h30m00s").
Proof.
  intros today username date_str ci b1 b2 co.
  assert (Hw : worked_seconds today [ci; b1; b2; co] = Returned 27000)
    by (rewrite (worked_seconds_today today 0); vm_compute; reflexivity).
  repeat (split; [rewrite (scan_today today 0); vm_compute; reflexivity |]).
  split; [exact Hw |].
  set (w := mk_world (Some [ci; b1; b2; co]) (Some []) []).
  rewrite (calculate_connected _ _ _ _ w [ci; b1; b2; co] [] eq_refl eq_refl).
  rewrite (guarded_run _ _ _ _ w [ci; b1; b2; co] [] eq_refl eq_refl).
  cbv zeta. subst w ci b1 b2 co. unfold selects.
  simpl filter. rewrite !String.eqb_refl. cbn [andb].
  rewrite Hw. reflexivity.
Qed.

(** C7. Every total is formatted as the hours, unpadded and unbounded,
    then the minutes and the seconds on two digits each: hours by floor
    division of the total by 3600, minutes by floor division of the
    remainder by 60, seconds as the final remainder. 35701 gives "9h55m01s"
    and 0 gives "0h00m00s". *)
Theorem format_duration_floor_division :
  forall total_seconds : Z,
    let hours := total_seconds / 3600 in
    let minutes := (total_seconds mod 3600) / 60 in
    let seconds := (total_seconds mod 3600) mod 60 in
    Format.format_duration total_seconds
      = (Format.str hours ++ "h" ++ two_digits minutes ++ "m"
           ++ two_digits seconds ++ "s")%string /\
    Format.format_duration total_seconds = format_spec total_seconds /\
    0 <= minutes < 60 /\ 0 <= seconds < 60 /\
    total_seconds = 3600 * hours + 60 * minutes + seconds /\
    Format.format_duration 35701 = "9h55m01s" /\
    Format.format_duration 0 = "0h00m00s" /\
    Format.format_duration 3600000 = "1000h00m00s".
Proof.
  intros total hours minutes seconds. subst hours minutes seconds.
  split; [apply format_duration_format_spec |].
  split; [apply format_duration_format_spec |].
  split; [apply minutes_range |].
  rewrite final_remainder.
  split; [apply seconds_range |].
  split; [apply duration_decomposition |].
  repeat split; reflexivity.
Qed.

(** C9. On a CHECK OUT row the scan adds (event time - session start) to
    the total exactly when a session is open and the user is not in a
    break, and it clears the session start in every case; the break state is
    left as it is. *)
Theorem check_out_step :
  forall today st record event_time,
    Logs.Evenement record = "CHECK OUT" ->
    strptime (Logs.Heure record) = Some event_time ->
    exists st',
      step today st record = Returned st' /\
      current_session_start st' = None /\
      in_break st' = in_break st /\
      break_start st' = break_start st /\
      total_seconds st' =
        match current_session_start st, in_break st with
        | Some start, false =>
            total_seconds st
            + (seconds_of_day event_time - seconds_of_day start)
        | _, _ => total_seconds st
        end.
Proof.
  intros today st record event_time Hkind Htime.
  unfold step. rewrite Htime, Hkind. simpl.
  destruct (current_session_start st) as [start|], (in_break st);
    eexists; (split; [reflexivity |]); simpl; repeat split.
  apply f_equal. apply session_seconds_of_day.
Qed.

Lemma check_out_step_witness :
  exists st',
    step 19000 (mk_state 100 (Some (mk 9 0 0)) false None)
         (Logs.mk "alice" "2024-05-01" "17:00:00" "CHECK OUT") = Returned st' /\
    current_session_start st' = None /\
    in_break st' = false /\
    break_start st' = None /\
    total_seconds st' = 100 + (61200 - 32400).
Proof.
  exact (check_out_step 19000 (mk_state 100 (Some (mk 9 0 0)) false None)
           (Logs.mk "alice" "2024-05-01" "17:00:00" "CHECK OUT") (mk 17 0 0)
           eq_refl eq_refl).
Defined.

Lemma step_check_in_closed today st record event_time :
  Logs.Evenement record = "CHECK IN" ->
  strptime (Logs.Heure record) = Some event_time ->
  current_session_start st = None ->
  step today st record
  = Returned (mk_state (total_seconds st) (Some event_time)
                       (in_break st) (break_start st)).
Proof.
  intros Hkind Htime Hs. unfold step. now rewrite Htime, Hkind, Hs.
Qed.

Lemma step_check_out_open today st record event_time start :
  Logs.Evenement record = "CHECK OUT" ->
  strptime (Logs.Heure record) = Some event_time ->
  current_session_start st = Some start -> in_break st = false ->
  step today st record
  = Returned (mk_state
                (total_seconds st + session_seconds today event_time start)
                None false (break_start st)).
Proof.
  intros Hkind Htime Hs Hb. unfold step. now rewrite Htime, Hkind, Hs, Hb.
Qed.

(** The scan over balanced pairs, from any state with no session open and
    no break running. *)
Lemma scan_pair_events today username date_str pairs : forall total st,
  paired_total pairs = Some total ->
  in_break st = false -> current_session_start st = None ->
  scan today st (pair_events username date_str pairs)
  = Returned (mk_state (total_seconds st + total) None false (break_start st)).
Proof.
  induction pairs as [|[t_in t_out] rest IH]; intros total st Hsum Hb Hs.
  - injection Hsum as <-. destruct st as [acc css ib bs]. simpl in *.
    subst. now rewrite Z.add_0_r.
  - simpl in Hsum.
    destruct (strptime t_in) as [a|] eqn:Ha; [| discriminate].
    destruct (strptime t_out) as [b|] eqn:Hout; [| discriminate].
    destruct (paired_total rest) as [s|] eqn:Hrest; [| discriminate].
    injection Hsum as <-.
    change (pair_events username date_str ((t_in, t_out) :: rest))
      with (Logs.mk username date_str t_in "CHECK IN"
            :: Logs.mk username date_str t_out "CHECK OUT"
            :: pair_events username date_str rest).
    cbn [scan].
    rewrite (step_check_in_closed today st
               (Logs.mk username date_str t_in "CHECK IN") a eq_refl Ha Hs).
    rewrite (step_check_out_open today
               (mk_state (total_seconds st) (Some a) (in_break st) (break_start st))
               (Logs.mk username date_str t_out "CHECK OUT") b a
               eq_refl Hout eq_refl Hb).
    cbn [total_seconds break_start].
    rewrite (IH s (mk_state (total_seconds st + session_seconds today b a)
                            None false (break_start st))
                eq_refl eq_refl eq_refl). simpl.
    rewrite session_seconds_of_day. f_equal. f_equal. lia.
Qed.

(** C4. When the time-sorted rows of a user and day are check-in/check-out
    pairs and nothing else, the seconds worked are the sum over the pairs of
    (check-out time - check-in time), and the aggregation returns that sum
    formatted; a CHECK IN while a session is open leaves the state as it
    is. *)
Theorem balanced_pairs_sum :
  forall today username date_str pairs total,
    paired_total pairs = Some total ->
    (forall records,
        sort records = pair_events username date_str pairs ->
        worked_seconds today records = Returned total) /\
    (forall fl w totals,
        daily_totals w = Some totals ->
        time_logs w <> None ->
        logs_read_fails fl = false -> totals_read_fails fl = false ->
        totals_write_fails fl = false ->
        pairs <> [] ->
        sort (user_records username date_str w)
          = pair_events username date_str pairs ->
        fst (calculate_daily_hours fl today username date_str w)
          = Returned (Some (Format.format_duration total))) /\
    (forall st record event_time start,
        Logs.Evenement record = "CHECK IN" ->
        strptime (Logs.Heure record) = Some event_time ->
        current_session_start st = Some start ->
        step today st record = Returned st).
Proof.
  intros today username date_str pairs total Hsum.
  assert (Hworked : forall records,
             sort records = pair_events username date_str pairs ->
             worked_seconds today records = Returned total).
  { intros records Hsorted. unfold worked_seconds. rewrite Hsorted.
    rewrite (scan_pair_events today username date_str pairs total init Hsum
               eq_refl eq_refl).
    reflexivity. }
  split; [exact Hworked |]. split.
  - intros fl w totals Htotals Hlogs F1 F2 F3 Hne Hsorted.
    destruct (time_logs w) as [logs|] eqn:El; [clear Hlogs | congruence].
    rewrite (calculate_connected fl today username date_str w logs totals El Htotals).
    rewrite (guarded_run fl today username date_str w logs totals El Htotals).
    cbv zeta. rewrite F1, F2, F3.
    unfold user_records in Hsorted. rewrite El in Hsorted.
    destruct (filter (selects username date_str) logs) as [|r rs] eqn:Ef.
    + simpl in Hsorted. destruct pairs as [|[a b] rest]; [congruence |].
      discriminate.
    + now rewrite (Hworked _ Hsorted).
  - intros st record event_time start Hkind Htime Hopen.
    unfold step. rewrite Htime, Hkind, Hopen. reflexivity.
Qed.

Lemma balanced_pairs_sum_witness :
  worked_seconds 19000
    [Logs.mk "alice" "2024-05-01" "13:00:00" "CHECK IN";
     Logs.mk "alice" "2024-05-01" "09:00:00" "CHECK IN";
     Logs.mk "alice" "2024-05-01" "12:15:30" "CHECK OUT";
     Logs.mk "alice" "2024-05-01" "17:00:00" "CHECK OUT"]
  = Returned (11730 + 14400).
Proof.
  apply (proj1 (balanced_pairs_sum 19000 "alice" "2024-05-01"
                  [("09:00:00", "12:15:30"); ("13:00:00", "17:00:00")]
                  (11730 + 14400) eq_refl)).
  vm_compute. reflexivity.
Defined.

(** C3. Rows whose kind is "BREAK START" or "BREAK END", the only kinds the
    break command records, are ignored by the aggregation: the scan leaves
    the total and the session and break state as they are on such a row,
    and dropping these rows changes neither the final state of the scan nor
    the seconds worked. *)
Theorem front_end_break_kinds_ignored :
  forall today,
    (forall user_logs,
        take_break_event user_logs = "BREAK START"
        \/ take_break_event user_logs = "BREAK END") /\
    (forall st record event_time,
        Logs.Evenement record = "BREAK START"
        \/ Logs.Evenement record = "BREAK END" ->
        strptime (Logs.Heure record) = Some event_time ->
        step today st record = Returned st) /\
    (forall st st' records,
        scan today st records = Returned st' ->
        scan today st (filter (fun r => negb (is_break_mark r)) records)
          = Returned st') /\
    (forall records total,
        worked_seconds today records = Returned total ->
        worked_seconds today (filter (fun r => negb (is_break_mark r)) records)
          = Returned total) /\
    (forall records,
        Forall (fun r => is_break_mark r = true ->
                         strptime (Logs.Heure r) <> None) records ->
        worked_seconds today (filter (fun r => negb (is_break_mark r)) records)
          = worked_seconds today records).
Proof.
  intros today. split; [| split; [| split; [| split]]].
  - intros user_logs. unfold take_break_event.
    destruct (find is_break_mark (rev user_logs)) as [last_break|]; [| now left].
    destruct (Logs.Evenement last_break =? "BREAK END")%string; auto.
  - intros st record event_time Hkind Htime.
    rewrite step_break_mark, Htime; [reflexivity |].
    unfold is_break_mark.
    destruct Hkind as [-> | ->]; reflexivity.
  - intros st st' records. apply scan_without_break_marks.
  - intros records total. unfold worked_seconds.
    rewrite sort_filter.
    destruct (scan today init (sort records)) as [st|e] eqn:E; [| discriminate].
    now rewrite (scan_without_break_marks today _ _ _ E).
  - intros records Hparsed. unfold worked_seconds.
    rewrite sort_filter, scan_break_marks_parsed; [reflexivity |].
    apply Forall_forall. intros r Hr.
    rewrite Forall_forall in Hparsed.
    exact (Hparsed r (proj1 (sort_In r records) Hr)).
Qed.

Lemma front_end_break_kinds_ignored_witness :
  step 19000 (mk_state 100 (Some (mk 9 0 0)) false None)
       (Logs.mk "alice" "2024-05-01" "12:00:00" "BREAK START")
    = Returned (mk_state 100 (Some (mk 9 0 0)) false None) /\
  worked_seconds 19000
    (filter (fun r => negb (is_break_mark r))
       [Logs.mk "alice" "2024-05-01" "09:00:00" "CHECK IN";
        Logs.mk "alice" "2024-05-01" "12:00:00" "BREAK START";
        Logs.mk "alice" "2024-05-01" "12:30:00" "BREAK END";
        Logs.mk "alice" "2024-05-01" "17:00:00" "CHECK OUT"])
    = Returned 28800.
Proof.
  split.
  - apply (proj1 (proj2 (front_end_break_kinds_ignored 19000))
             _ _ (mk 12 0 0)); [now left | reflexivity].
  - apply (proj1 (proj2 (proj2 (proj2 (front_end_break_kinds_ignored 19000))))).
    vm_compute. reflexivity.
Defined.

(** C8. When the events table has no row for the user and day, the
    aggregation returns [None] and the summary table is left as it is: no
    write call is made. *)
Theorem no_events_absent_result :
  forall fl today username date_str w,
    user_records username date_str w = [] ->
    exists w' new,
      calculate_daily_hours fl today username date_str w = (Returned None, w') /\
      daily_totals w' = daily_totals w /\
      time_logs w' = time_logs w /\
      calls w' = calls w ++ new /\
      filter is_write new = [].
Proof.
  intros fl today username date_str w Hnone.
  unfold user_records in Hnone.
  destruct (time_logs w) as [logs|] eqn:Hlogs.
  2: { exists w, []. unfold calculate_daily_hours. rewrite Hlogs, app_nil_r.
       auto. }
  destruct (daily_totals w) as [totals|] eqn:Htotals.
  2: { exists w, []. unfold calculate_daily_hours.
       rewrite Hlogs, Htotals, app_nil_r. auto. }
  rewrite (calculate_connected fl today username date_str w logs totals
             Hlogs Htotals).
  rewrite (guarded_run fl today username date_str w logs totals Hlogs Htotals).
  cbv zeta. rewrite Hnone.
  exists (record_call (Get_all_records Logs_sheet) w),
         [Get_all_records Logs_sheet].
  destruct (logs_read_fails fl); simpl; auto.
Qed.

Lemma no_events_absent_result_witness :
  exists w' new,
    calculate_daily_hours no_faults 19000 "bob" "2024-05-01"
      (mk_world
         (Some [Logs.mk "alice" "2024-05-01" "09:00:00" "CHECK IN";
                Logs.mk "bob" "2024-04-30" "09:00:00" "CHECK IN"])
         (Some [Totaux.mk "bob" "2024-04-30" "8h00m00s"]) [])
      = (Returned None, w') /\
    daily_totals w' = Some [Totaux.mk "bob" "2024-04-30" "8h00m00s"] /\
    time_logs w' =
      Some [Logs.mk "alice" "2024-05-01" "09:00:00" "CHECK IN";
            Logs.mk "bob" "2024-04-30" "09:00:00" "CHECK IN"] /\
    calls w' = [] ++ new /\
    filter is_write new = [].
Proof.
  apply (no_events_absent_result no_faults 19000 "bob" "2024-05-01").
  vm_compute. reflexivity.
Defined.

(** C10. The aggregation never writes to the events table: the table is
    the same after the call, the calls made are reads plus at most one
    write ([update_cell] or [append_row]), and that write is on the summary
    table; so a later aggregation reads the same event history. *)
Theorem events_table_never_written :
  forall fl today username date_str w,
    let w' := snd (calculate_daily_hours fl today username date_str w) in
    time_logs w' = time_logs w /\
    (exists new,
        calls w' = calls w ++ new /\
        (List.length (filter is_write new) <= 1)%nat /\
        Forall (fun c => is_write c = true -> target c = Totaux_sheet) new) /\
    (forall username' date_str',
        user_records username' date_str' w'
        = user_records username' date_str' w).
Proof.
  intros fl today username date_str w w'. subst w'.
  destruct (calculate_returns fl today username date_str w) as (r & w' & Hrun).
  rewrite Hrun. simpl snd.
  destruct (calculate_effect fl today username date_str w r w' Hrun)
    as (Hlogs & _ & Htrace).
  split; [exact Hlogs |]. split; [exact Htrace |].
  intros username' date_str'. unfold user_records. now rewrite Hlogs.
Qed.

(** C6. A fault during the aggregation, be it a worksheet call that raises
    or a time string that does not parse, makes the call return [None] with
    both tables as they were; and no call of [calculate_daily_hours] ever
    raises. *)
Theorem faults_give_absent_result :
  forall fl today username date_str w,
    (exists r w',
        calculate_daily_hours fl today username date_str w = (Returned r, w')) /\
    (fault fl username date_str w ->
     (exists e w', guarded fl today username date_str w = (Raised e, w')) /\
     exists w',
       calculate_daily_hours fl today username date_str w = (Returned None, w') /\
       daily_totals w' = daily_totals w /\
       time_logs w' = time_logs w).
Proof.
  intros fl today username date_str w.
  split; [apply calculate_returns |].
  intros (Hl & Ht & Hfault).
  destruct (time_logs w) as [logs|] eqn:Hlogs; [clear Hl | congruence].
  destruct (daily_totals w) as [totals|] eqn:Htotals; [clear Ht | congruence].
  unfold user_records in Hfault. rewrite Hlogs in Hfault.
  rewrite (calculate_connected fl today username date_str w logs totals
             Hlogs Htotals).
  rewrite (guarded_run fl today username date_str w logs totals Hlogs Htotals).
  cbv zeta.
  destruct (logs_read_fails fl) eqn:F1.
  { split; [eauto | eexists; repeat split; simpl; auto]. }
  destruct (filter (selects username date_str) logs) as [|x xs] eqn:Hf.
  { exfalso. destruct Hfault as [H | [(r & [] & _) | (H & _)]]; congruence. }
  destruct (worked_seconds today (x :: xs)) as [total|e] eqn:Hws.
  2: { split; [eauto | eexists; repeat split; simpl; auto]. }
  destruct (totals_read_fails fl) eqn:F2.
  { split; [eauto | eexists; repeat split; simpl; auto]. }
  destruct (totals_write_fails fl) eqn:F3.
  { split; [eauto | eexists; repeat split; simpl; auto]. }
  exfalso. destruct Hfault as [H | [(r & Hin & Hr) | (_ & [H | H])]];
    try congruence.
  apply (proj2 (sort_In r (x :: xs))) in Hin.
  destruct (scan_malformed today _ init r Hin Hr) as [e He].
  unfold worked_seconds in Hws. rewrite He in Hws. discriminate.
Qed.

Lemma faults_give_absent_result_witness :
  exists w',
    calculate_daily_hours no_faults 19000 "alice" "2024-05-01"
      (mk_world
         (Some [Logs.mk "alice" "2024-05-01" "09:00:00" "CHECK IN";
                Logs.mk "alice" "2024-05-01" "17h00" "CHECK OUT"])
         (Some [Totaux.mk "alice" "2024-05-01" "1h00m00s"]) [])
      = (Returned None, w') /\
    daily_totals w' = Some [Totaux.mk "alice" "2024-05-01" "1h00m00s"] /\
    time_logs w' =
      Some [Logs.mk "alice" "2024-05-01" "09:00:00" "CHECK IN";
            Logs.mk "alice" "2024-05-01" "17h00" "CHECK OUT"].
Proof.
  apply (proj2 (faults_give_absent_result no_faults 19000 "alice" "2024-05-01"
                  (mk_world
                     (Some [Logs.mk "alice" "2024-05-01" "09:00:00" "CHECK IN";
                            Logs.mk "alice" "2024-05-01" "17h00" "CHECK OUT"])
                     (Some [Totaux.mk "alice" "2024-05-01" "1h00m00s"]) []))).
  split; [discriminate |]. split; [discriminate |].
  right. left.
  exists (Logs.mk "alice" "2024-05-01" "17h00" "CHECK OUT").
  split; [vm_compute; auto | reflexivity].
Defined.

(** ** Two aggregations in a row *)

Section Twice.

Variables (username date_str : string).

Lemma upsert_single value totals :
  (List.length (rows_of username date_str totals) <= 1)%nat ->
  rows_of username date_str (upsert username date_str value totals)
  = [Totaux.mk username date_str value].
Proof.
  intros H. rewrite upsert_rows.
  destruct (rows_of username date_str totals) as [|r [|r' rest]];
    simpl in *; [reflexivity | reflexivity | lia].
Qed.

(** A successful aggregation leaves one row for the key, with the value
    returned. *)
Lemma single_row_after_success fl today w value w' :
  at_most_one_row username date_str w ->
  calculate_daily_hours fl today username date_str w
    = (Returned (Some value), w') ->
  exists totals',
    daily_totals w' = Some totals' /\
    rows_of username date_str totals'
      = [Totaux.mk username date_str value].
Proof.
  intros Hinv Hrun.
  destruct (calculate_effect fl today username date_str w _ _ Hrun)
    as (_ & (totals & total & Ht & Ht' & _) & _).
  exists (upsert username date_str value totals).
  split; [exact Ht' |]. apply upsert_single. now apply Hinv.
Qed.

(** Any aggregation keeps the key on at most one row. *)
Lemma at_most_one_row_preserved fl today w r w' :
  at_most_one_row username date_str w ->
  calculate_daily_hours fl today username date_str w = (r, w') ->
  at_most_one_row username date_str w'.
Proof.
  intros Hinv Hrun.
  destruct (calculate_returns fl today username date_str w)
    as (r0 & w0 & Hrun0).
  rewrite Hrun0 in Hrun. injection Hrun as <- <-.
  destruct (calculate_effect fl today username date_str w _ _ Hrun0)
    as (_ & Heff & _).
  destruct r0 as [value|].
  - destruct Heff as (totals & total & Ht & Ht' & _).
    intros totals' H. rewrite Ht' in H. injection H as <-.
    rewrite upsert_single by now apply Hinv. simpl. lia.
  - intros totals' H. rewrite Heff in H. now apply Hinv.
Qed.

End Twice.

(** C5. Two aggregations for the same user and day, on a summary table
    that starts with at most one row for them, leave exactly one such row,
    holding the duration the second call returned, whatever was added to the
    events in between; on an unchanged event history the second call
    returns the same duration as the first and leaves the summary table as
    the first call left it. *)
Theorem aggregate_twice_single_row :
  forall fl1 today1 username date_str w0 r1 w1,
    at_most_one_row username date_str w0 ->
    calculate_daily_hours fl1 today1 username date_str w0 = (r1, w1) ->
    (forall fl2 today2 logs' value w2,
        calculate_daily_hours fl2 today2 username date_str
          (with_time_logs logs' w1) = (Returned (Some value), w2) ->
        exists totals2,
          daily_totals w2 = Some totals2 /\
          rows_of username date_str totals2
            = [Totaux.mk username date_str value]) /\
    (forall value,
        r1 = Returned (Some value) ->
        forall today2,
        exists w2 totals2,
          calculate_daily_hours no_faults today2 username date_str w1
            = (Returned (Some value), w2) /\
          daily_totals w2 = daily_totals w1 /\
          daily_totals w2 = Some totals2 /\
          rows_of username date_str totals2
            = [Totaux.mk username date_str value]).
Proof.
  intros fl1 today1 username date_str w0 r1 w1 Hinv Hrun1.
  pose proof (at_most_one_row_preserved username date_str fl1 today1
                w0 r1 w1 Hinv Hrun1) as Hinv1.
  split.
  - intros fl2 today2 logs' value w2 Hrun2.
    apply (single_row_after_success username date_str fl2 today2
             (with_time_logs logs' w1) value w2); [| exact Hrun2].
    intros totals H. now apply Hinv1.
  - intros value -> today2.
    destruct (calculate_effect fl1 today1 username date_str w0 _ _ Hrun1)
      as (Hlogs & (totals & total & Ht & Ht1 & Hws & Hne & Hval) & _).
    unfold user_records in Hws, Hne. rewrite <- Hlogs in Hws, Hne.
    destruct (time_logs w1) as [logs|] eqn:El; [| congruence].
    rewrite (calculate_connected no_faults today2 username date_str w1 logs _
               El Ht1).
    rewrite (guarded_run no_faults today2 username date_str w1 logs _ El Ht1).
    cbv zeta. simpl logs_read_fails. simpl totals_read_fails.
    simpl totals_write_fails. cbv iota.
    destruct (filter (selects username date_str) logs) as [|x xs] eqn:Ef;
      [congruence |].
    rewrite (worked_seconds_today today2 today1), Hws, <- Hval.
    rewrite upsert_idempotent.
    eexists _, _. split; [reflexivity |]. simpl.
    split; [now rewrite Ht1 |]. split; [reflexivity |].
    apply upsert_single. now apply Hinv.
Qed.

Lemma aggregate_twice_single_row_witness :
  exists totals2,
    daily_totals Day.evening = Some totals2 /\
    rows_of "alice" "2024-05-01" totals2
      = [Totaux.mk "alice" "2024-05-01" "7h00m00s"].
Proof.
  assert (H0 : at_most_one_row "alice" "2024-05-01" Day.at_noon).
  { intros totals H. injection H as <-. vm_compute. lia. }
  assert (H1 : calculate_daily_hours no_faults 19844 "alice" "2024-05-01"
                 Day.at_noon
               = (Returned (Some "3h00m00s"), Day.after_noon))
    by (vm_compute; reflexivity).
  assert (H2 : calculate_daily_hours no_faults 19844 "alice" "2024-05-01"
                 (with_time_logs (Day.morning ++ Day.afternoon) Day.after_noon)
               = (Returned (Some "7h00m00s"), Day.evening))
    by (vm_compute; reflexivity).
  exact (proj1 (aggregate_twice_single_row no_faults 19844 "alice" "2024-05-01"
                  Day.at_noon _ _ H0 H1)
               no_faults 19844 (Day.morning ++ Day.afternoon) "7h00m00s"
               Day.evening H2).
Defined.

(** * Beyond the aggregation: the clock, the commands, the configuration *)

Import Clock Frontend.

(** ** Time strings the bot writes *)

Section Written.

Lemma N_of_digit k :
  0 <= k <= 9 -> N_of_ascii (digit k) = Z.to_N (48 + k).
Proof.
  intros H. unfold digit. apply N_ascii_embedding. lia.
Qed.

Lemma digit_of_digit k : 0 <= k <= 9 -> digit_of (digit k) = Some k.
Proof.
  intros H. unfold digit_of. rewrite (N_of_digit k H), Z2N.id by lia.
  replace (48 <=? 48 + k) with true by (symmetry; apply Z.leb_le; lia).
  replace (48 + k <=? 57) with true by (symmetry; apply Z.leb_le; lia).
  cbn [andb]. f_equal. lia.
Qed.

Lemma compare_digit a b :
  0 <= a <= 9 -> 0 <= b <= 9 ->
  Ascii.compare (digit a) (digit b) = (a ?= b).
Proof.
  intros Ha Hb. unfold Ascii.compare.
  rewrite (N_of_digit a Ha), (N_of_digit b Hb), Z2N.inj_compare by lia.
  apply Z.add_compare_mono_l.
Qed.

Lemma tens_units n :
  0 <= n < 100 ->
  0 <= n / 10 <= 9 /\ 0 <= n mod 10 <= 9 /\ n = 10 * (n / 10) + n mod 10.
Proof.
  intros H. pose proof (Z.div_mod n 10 ltac:(lia)).
  pose proof (Z.mod_pos_bound n 10 ltac:(lia)).
  assert (0 <= n / 10) by (apply Z.div_pos; lia).
  assert (n / 10 < 10) by (apply Z.div_lt_upper_bound; lia).
  lia.
Qed.

(** A two-digit field is read back whole, whatever follows it. *)
Lemma field_two_digits n rest :
  0 <= n < 100 -> field (two_digits n ++ rest) = Some (n, rest).
Proof.
  intros H. destruct (tens_units n H) as (Ht & Hu & Hn).
  unfold two_digits. cbn [String.append]. unfold field.
  rewrite (digit_of_digit _ Ht), (digit_of_digit _ Hu).
  now rewrite <- Hn.
Qed.

Lemma strptime_strftime t : valid t -> strptime (strftime t) = Some t.
Proof.
  intros (Hh & Hm & Hs). unfold strftime, strptime.
  rewrite field_two_digits by lia.
  cbn [String.append colon Ascii.eqb Bool.eqb].
  rewrite field_two_digits by lia.
  cbn [String.append colon Ascii.eqb Bool.eqb].
  replace (two_digits (second t))
    with (two_digits (second t) ++ EmptyString)%string
    by (unfold two_digits; reflexivity).
  rewrite field_two_digits by lia.
  replace (hour t <=? 23) with true by (symmetry; apply Z.leb_le; lia).
  replace (minute t <=? 59) with true by (symmetry; apply Z.leb_le; lia).
  replace (second t <=? 59) with true by (symmetry; apply Z.leb_le; lia).
  now destruct t.
Qed.

(** Comparing two strings that start with a two-digit field compares the
    fields first. *)
Lemma compare_two_digits a b ra rb :
  0 <= a < 100 -> 0 <= b < 100 ->
  String.compare (two_digits a ++ ra) (two_digits b ++ rb) =
  match a ?= b with
  | Eq => String.compare ra rb
  | c => c
  end.
Proof.
  intros Ha Hb.
  destruct (tens_units a Ha) as (Hta & Hua & Hna).
  destruct (tens_units b Hb) as (Htb & Hub & Hnb).
  unfold two_digits. cbn [String.append String.compare].
  rewrite (compare_digit _ _ Hta Htb), (compare_digit _ _ Hua Hub).
  destruct (Z.compare_spec (a / 10) (b / 10));
    destruct (Z.compare_spec (a mod 10) (b mod 10));
    destruct (Z.compare_spec a b); try reflexivity; lia.
Qed.

Lemma strftime_compare a b :
  valid a -> valid b ->
  String.compare (strftime a) (strftime b)
  = (seconds_of_day a ?= seconds_of_day b).
Proof.
  intros (Hh & Hm & Hs) (Hh' & Hm' & Hs'). unfold strftime, seconds_of_day.
  rewrite compare_two_digits by lia.
  destruct (Z.compare_spec (hour a) (hour b)) as [Eh|Eh|Eh].
  - cbn [String.append String.compare].
    change (Ascii.compare ":" ":") with Eq. cbv iota.
    rewrite compare_two_digits by lia.
    destruct (Z.compare_spec (minute a) (minute b)) as [Em|Em|Em].
    + cbn [String.append String.compare].
      change (Ascii.compare ":" ":") with Eq. cbv iota.
      replace (two_digits (second a))
        with (two_digits (second a) ++ EmptyString)%string by reflexivity.
      replace (two_digits (second b))
        with (two_digits (second b) ++ EmptyString)%string by reflexivity.
      rewrite compare_two_digits by lia. cbn [String.compare].
      rewrite Eh, Em.
      destruct (Z.compare_spec (second a) (second b)); symmetry;
        [apply Z.compare_eq_iff | apply Z.compare_lt_iff
         | apply Z.compare_gt_iff]; lia.
    + symmetry. apply Z.compare_lt_iff. lia.
    + symmetry. apply Z.compare_gt_iff. lia.
  - symmetry. apply Z.compare_lt_iff. lia.
  - symmetry. apply Z.compare_gt_iff. lia.
Qed.

Lemma strftime_ltb a b :
  valid a -> valid b ->
  String.ltb (strftime a) (strftime b)
  = (seconds_of_day a <? seconds_of_day b).
Proof.
  intros Ha Hb. unfold String.ltb, Z.ltb.
  now rewrite (strftime_compare a b Ha Hb).
Qed.

Lemma digit_of_range c d : digit_of c = Some d -> 0 <= d <= 9.
Proof.
  unfold digit_of.
  destruct (48 <=? Z.of_N (N_of_ascii c)) eqn:E1;
    destruct (Z.of_N (N_of_ascii c) <=? 57) eqn:E2; simpl; try discriminate.
  intros H. injection H as <-.
  apply Z.leb_le in E1, E2. lia.
Qed.

Lemma field_range s v rest : field s = Some (v, rest) -> 0 <= v <= 99.
Proof.
  unfold field. destruct s as [|c1 rest1]; [discriminate |].
  destruct (digit_of c1) as [d1|] eqn:E1; [| discriminate].
  apply digit_of_range in E1.
  destruct rest1 as [|c2 rest2].
  - intros Hf. injection Hf as <- <-. lia.
  - destruct (digit_of c2) as [d2|] eqn:E2.
    + apply digit_of_range in E2.
      intros Hf. assert (v = 10 * d1 + d2) by congruence. lia.
    + intros Hf. injection Hf as <- <-. lia.
Qed.

Lemma strptime_valid s t : strptime s = Some t -> valid t.
Proof.
  unfold strptime.
  destruct (field s) as [[h s1]|] eqn:Eh; [| discriminate].
  destruct (colon s1) as [s2|]; [| discriminate].
  destruct (field s2) as [[m s3]|] eqn:Em; [| discriminate].
  destruct (colon s3) as [s4|]; [| discriminate].
  destruct (field s4) as [[sec [|c r]]|] eqn:Es; try discriminate.
  destruct (h <=? 23) eqn:B1; [| discriminate].
  destruct (m <=? 59) eqn:B2; [| discriminate].
  destruct (sec <=? 59) eqn:B3; [| discriminate].
  simpl. intros H. injection H as <-.
  apply Z.leb_le in B1, B2, B3.
  pose proof (field_range _ _ _ Eh). pose proof (field_range _ _ _ Em).
  pose proof (field_range _ _ _ Es).
  unfold valid. simpl. lia.
Qed.

End Written.

(** ** A day of rows written by the bot *)

Section WrittenDay.

Variable today : Z.

Lemma valid_seconds t : valid t -> 0 <= seconds_of_day t < 86400.
Proof. unfold valid, seconds_of_day. lia. Qed.

Ltac frontier :=
  repeat split; intros; simpl in *;
  repeat match goal with
         | H : Some _ = Some _ |- _ => injection H as <-
         | H1 : ?x = Some _, H2 : ?x = Some _ |- _ => rewrite H1 in H2
         | H : forall s, Some ?a = Some s -> _ |- _ =>
             specialize (H _ eq_refl)
         | H : forall s, None = Some s -> _ |- _ => clear H
         | H : forall s, ?c = Some s -> _, E : ?c = Some _ |- _ =>
             specialize (H _ E)
         end;
  try assumption; try discriminate; try lia.

(** One step on a row of a kind other than "BREAK", no break running:
    the total stays between 0 and the time reached. *)
Lemma step_frontier st r t f :
  strptime (Logs.Heure r) = Some t ->
  no_break_tag r ->
  in_break st = false ->
  0 <= total_seconds st <= f ->
  (forall s, current_session_start st = Some s ->
             total_seconds st <= seconds_of_day s <= f) ->
  f <= seconds_of_day t ->
  exists st1,
    step today st r = Returned st1 /\
    in_break st1 = false /\
    0 <= total_seconds st1 <= seconds_of_day t /\
    (forall s, current_session_start st1 = Some s ->
               total_seconds st1 <= seconds_of_day s <= seconds_of_day t).
Proof.
  intros Ht Hk Hb Htot Hs Hf. unfold step. rewrite Ht.
  destruct (Logs.Evenement r =? "CHECK IN")%string.
  { destruct (current_session_start st) as [s|] eqn:Es;
      (eexists; split; [reflexivity |]); frontier. }
  destruct (Logs.Evenement r =? "BREAK")%string eqn:Eb.
  { apply String.eqb_eq in Eb. contradiction. }
  destruct (Logs.Evenement r =? "CHECK OUT")%string.
  - rewrite Hb.
    destruct (current_session_start st) as [s|] eqn:Es;
      (eexists; split; [reflexivity |]);
      rewrite ?session_seconds_of_day; frontier.
  - exists st. split; [reflexivity |]. frontier.
Qed.

Lemma scan_written l : forall st f,
  sorted l -> Forall written l -> Forall no_break_tag l ->
  in_break st = false ->
  0 <= total_seconds st <= f ->
  (forall s, current_session_start st = Some s ->
             total_seconds st <= seconds_of_day s <= f) ->
  Forall (fun r => forall t, strptime (Logs.Heure r) = Some t ->
                             f <= seconds_of_day t) l ->
  f < 86400 ->
  exists st',
    scan today st l = Returned st' /\
    in_break st' = false /\
    0 <= total_seconds st' < 86400.
Proof.
  induction l as [|r l IH]; intros st f Hsorted Hw Hk Hb Htot Hs Hlow Hf.
  - exists st. simpl. repeat split; auto; lia.
  - destruct Hsorted as [Hhead Hsorted].
    inversion Hw as [|? ? (t & Hvalid & Hr) Hw']; subst.
    inversion Hk as [|? ? Hkr Hk']; subst.
    inversion Hlow as [|? ? Hlr Hlow']; subst.
    assert (Ht : strptime (Logs.Heure r) = Some t)
      by (rewrite Hr; now apply strptime_strftime).
    specialize (Hlr t Ht).
    destruct (step_frontier st r t f Ht Hkr Hb Htot Hs Hlr)
      as (st1 & Hstep & Hb1 & Htot1 & Hs1).
    simpl. rewrite Hstep.
    apply (IH st1 (seconds_of_day t)); auto.
    + apply Forall_forall. intros y Hy t' Hy'.
      rewrite Forall_forall in Hhead, Hw'.
      specialize (Hhead y Hy). destruct (Hw' y Hy) as (ty & Hvy & Hyt).
      rewrite Hyt, strptime_strftime in Hy' by assumption.
      injection Hy' as <-.
      rewrite Hyt, Hr, strftime_ltb in Hhead by assumption.
      apply Z.ltb_ge in Hhead. exact Hhead.
    + pose proof (valid_seconds t Hvalid). lia.
Qed.

Lemma worked_seconds_written records :
  Forall written records -> Forall no_break_tag records ->
  exists total,
    worked_seconds today records = Returned total /\ 0 <= total < 86400.
Proof.
  intros Hw Hk.
  assert (Hin : forall (P : Logs.record -> Prop),
             Forall P records -> Forall P (sort records)).
  { intros P HP. apply Forall_forall. intros r Hr.
    rewrite Forall_forall in HP.
    exact (HP r (proj1 (sort_In r records) Hr)). }
  destruct (scan_written (sort records) init 0) as (st & Hscan & Hb & Htot);
    auto using sort_sorted; simpl; try lia; try discriminate.
  - apply Forall_forall. intros r Hr t Ht.
    apply strptime_valid, valid_seconds in Ht. lia.
  - exists (total_seconds st). unfold worked_seconds. rewrite Hscan.
    unfold finish. rewrite Hb. auto.
Qed.

End WrittenDay.

(** X1. A time written by the bot parses back to itself: for every
    time of day with fields in range, [strptime] of its [strftime] text is
    that time. *)
Theorem written_time_parses_back :
  forall t, valid t -> strptime (strftime t) = Some t.
Proof. exact strptime_strftime. Qed.

Lemma written_time_parses_back_witness :
  strptime (strftime (mk 9 5 0)) = Some (mk 9 5 0).
Proof.
  apply written_time_parses_back. unfold valid. simpl. lia.
Defined.

(** X2. On the time strings the bot writes, the order the sort uses is
    the order of the times: one string is smaller than another exactly when
    its time of day is earlier. *)
Theorem written_times_sort_chronologically :
  forall a b,
    valid a -> valid b ->
    (String.ltb (strftime a) (strftime b) = true
     <-> seconds_of_day a < seconds_of_day b).
Proof.
  intros a b Ha Hb. rewrite (strftime_ltb a b Ha Hb). apply Z.ltb_lt.
Qed.

Lemma written_times_sort_chronologically_witness :
  String.ltb (strftime (mk 9 30 0)) (strftime (mk 17 0 0)) = true
  <-> seconds_of_day (mk 9 30 0) < seconds_of_day (mk 17 0 0).
Proof.
  apply written_times_sort_chronologically; unfold valid; simpl; lia.
Defined.



(** X4. When every row of the user and day has a time string written by
    the bot and none has the kind "BREAK" (no command records it), the
    aggregation succeeds with between 0 and 86399 seconds, that is at most
    23 hours. *)
Theorem written_day_within_bounds :
  forall today records,
    Forall written records -> Forall no_break_tag records ->
    exists total,
      worked_seconds today records = Returned total /\
      0 <= total < 86400 /\ 0 <= total / 3600 <= 23.
Proof.
  intros today records Hw Hk.
  destruct (worked_seconds_written today records Hw Hk) as (total & H & Hr).
  exists total. repeat split; try lia; try assumption.
  - apply Z.div_pos; lia.
  - assert (total / 3600 < 24) by (apply Z.div_lt_upper_bound; lia). lia.
Qed.

Lemma written_day_within_bounds_witness :
  exists total,
    worked_seconds 19844
      [Logs.mk "alice" "2024-05-01" (strftime (mk 17 0 0)) "CHECK OUT";
       Logs.mk "alice" "2024-05-01" (strftime (mk 12 0 0)) "BREAK START";
       Logs.mk "alice" "2024-05-01" (strftime (mk 9 0 0)) "CHECK IN"]
      = Returned total /\
    0 <= total < 86400 /\ 0 <= total / 3600 <= 23.
Proof.
  apply written_day_within_bounds.
  - repeat constructor.
    + exists (mk 17 0 0). unfold valid. simpl. split; [lia | reflexivity].
    + exists (mk 12 0 0). unfold valid. simpl. split; [lia | reflexivity].
    + exists (mk 9 0 0). unfold valid. simpl. split; [lia | reflexivity].
  - repeat constructor; discriminate.
Defined.

(** ** [log_event] *)

Section LogEvent.

Variables (append_fails : bool) (fl : faults) (now : reading).
Variables (username event_type : string).

Lemma log_event_unconnected w :
  time_logs w = None ->
  log_event append_fails fl now username event_type w = (Returned false, w).
Proof.
  intros H. unfold log_event, try_except, bind, logs_append_row.
  now rewrite H.
Qed.

(** [log_event], call by call, when the events worksheet is connected. *)
Lemma log_event_run w logs :
  time_logs w = Some logs ->
  log_event append_fails fl now username event_type w =
  let w1 :=
    record_call (Append_row Logs_sheet
                   [username; date_str now; strftime (time_of_day now);
                    event_type]) w in
  if append_fails then (Returned false, w1) else
  let w2 :=
    mk_world (Some (logs ++ [logged_row now username event_type]))
             (daily_totals w) (calls w1) in
  if (event_type =? "CHECK OUT")%string
  then (Returned true,
        snd (calculate_daily_hours fl (today now) username (date_str now) w2))
  else (Returned true, w2).
Proof.
  intros H. unfold log_event, try_except, bind at 1, bind at 1.
  unfold logs_append_row. rewrite H. cbv zeta.
  destruct append_fails; [reflexivity |].
  unfold logged_row. simpl daily_totals. simpl calls.
  destruct (event_type =? "CHECK OUT")%string; [| reflexivity].
  unfold bind.
  match goal with
  | |- context [calculate_daily_hours ?a ?b ?c ?d ?w] =>
      destruct (calculate_returns a b c d w) as (r & w' & ->)
  end.
  reflexivity.
Qed.

End LogEvent.


(** X5. [log_event] never raises. It returns [True] exactly when the
    events worksheet is connected and the [append_row] went through, and then
    the events table has the new row at its end and nothing else changed in
    it; when it returns [False] both tables are as they were. *)
Theorem log_event_reports_append :
  forall append_fails fl now username event_type w,
  exists b w',
    log_event append_fails fl now username event_type w = (Returned b, w') /\
    (b = true <-> time_logs w <> None /\ append_fails = false) /\
    (b = true ->
     exists logs,
       time_logs w = Some logs /\
       time_logs w' = Some (logs ++ [logged_row now username event_type])) /\
    (b = false ->
     time_logs w' = time_logs w /\ daily_totals w' = daily_totals w).
Proof.
  intros append_fails fl now username event_type w.
  destruct (time_logs w) as [logs|] eqn:Hlogs.
  2: { exists false, w.
       rewrite (log_event_unconnected _ _ _ _ _ w Hlogs).
       repeat split; try congruence. intros [H _]. congruence. }
  rewrite (log_event_run _ _ _ _ _ w logs Hlogs). cbv zeta.
  destruct append_fails.
  { eexists _, _. split; [reflexivity |]. simpl.
    repeat split; try congruence. intros [_ H]. congruence. }
  destruct (event_type =? "CHECK OUT")%string.
  - match goal with
    | |- context [calculate_daily_hours ?a ?b ?c ?d ?w] =>
        destruct (calculate_returns a b c d w) as (r & w' & Hrun);
        pose proof (calculate_effect a b c d w r w' Hrun) as (Hl & _)
    end.
    rewrite Hrun. simpl snd. simpl in Hl.
    exists true, w'. repeat split; try congruence.
    intros _. exists logs. now split.
  - eexists _, _. split; [reflexivity |]. simpl.
    repeat split; try congruence. intros _. exists logs. now split.
Qed.

(** X6. An event of a kind other than "CHECK OUT" never reaches the
    summary: [log_event] leaves the summary table as it was and makes no
    call on it. *)
Theorem log_event_other_kinds_skip_summary :
  forall append_fails fl now username event_type w,
    event_type <> "CHECK OUT" ->
    let w' := snd (log_event append_fails fl now username event_type w) in
    daily_totals w' = daily_totals w /\
    exists new,
      calls w' = calls w ++ new /\
      Forall (fun c => target c = Logs_sheet) new.
Proof.
  intros append_fails fl now username event_type w Hkind w'. subst w'.
  destruct (time_logs w) as [logs|] eqn:Hlogs.
  2: { rewrite (log_event_unconnected _ _ _ _ _ w Hlogs). simpl.
       split; [reflexivity |]. exists []. now rewrite app_nil_r. }
  rewrite (log_event_run _ _ _ _ _ w logs Hlogs). cbv zeta.
  apply String.eqb_neq in Hkind. rewrite Hkind.
  destruct append_fails; simpl; (split; [reflexivity |]);
    eexists; (split; [reflexivity |]); repeat constructor.
Qed.

Lemma log_event_other_kinds_skip_summary_witness :
  let w' := snd (log_event false no_faults (mk_reading 19844 "2024-05-01" (mk 13 0 0))
                   "alice" "CHECK IN" Day.after_noon) in
  daily_totals w' = daily_totals Day.after_noon /\
  exists new,
    calls w' = calls Day.after_noon ++ new /\
    Forall (fun c => target c = Logs_sheet) new.
Proof.
  apply log_event_other_kinds_skip_summary. discriminate.
Defined.



(** X8. [log_event] drops the value of [calculate_daily_hours]: when the
    row of a check-out is appended and the aggregation that follows returns
    [None], [log_event] still returns [True], and the summary table is as it
    was. *)
Theorem check_out_hides_failed_aggregation :
  forall fl now username w logs w',
    time_logs w = Some logs ->
    calculate_daily_hours fl (today now) username (date_str now)
      (mk_world (Some (logs ++ [logged_row now username "CHECK OUT"]))
                (daily_totals w)
                (calls w ++ [Append_row Logs_sheet
                               [username; date_str now;
                                strftime (time_of_day now); "CHECK OUT"]]))
      = (Returned None, w') ->
    log_event false fl now username "CHECK OUT" w = (Returned true, w') /\
    daily_totals w' = daily_totals w.
Proof.
  intros fl now username w logs w' Hlogs Hrun.
  rewrite (log_event_run _ _ _ _ _ w logs Hlogs). cbv zeta. simpl String.eqb.
  cbv iota. unfold record_call. simpl calls. simpl daily_totals.
  rewrite Hrun. split; [reflexivity |].
  now destruct (calculate_effect _ _ _ _ _ _ _ Hrun) as (_ & Heff & _).
Qed.

Lemma check_out_hides_failed_aggregation_witness :
  exists w',
    log_event false no_faults (mk_reading 19844 "2024-05-01" (mk 17 0 0))
              "alice" "CHECK OUT"
              (mk_world (Some [Logs.mk "alice" "2024-05-01" "9h" "CHECK IN"])
                        (Some [Totaux.mk "alice" "2024-05-01" "1h00m00s"]) [])
      = (Returned true, w') /\
    daily_totals w' = Some [Totaux.mk "alice" "2024-05-01" "1h00m00s"].
Proof.
  eexists.
  apply (check_out_hides_failed_aggregation no_faults
           (mk_reading 19844 "2024-05-01" (mk 17 0 0)) "alice"
           (mk_world (Some [Logs.mk "alice" "2024-05-01" "9h" "CHECK IN"])
                     (Some [Totaux.mk "alice" "2024-05-01" "1h00m00s"]) [])
           [Logs.mk "alice" "2024-05-01" "9h" "CHECK IN"]).
  - reflexivity.
  - vm_compute. reflexivity.
Defined.

(** X9. [log_event] keeps the events table well formed: when every time
    string in it parses before the call, every time string in it parses
    after the call, the row just written included. *)
Theorem log_event_keeps_times_well_formed :
  forall append_fails fl now username event_type w,
    valid (time_of_day now) ->
    (forall logs, time_logs w = Some logs ->
                  Forall (fun r => strptime (Logs.Heure r) <> None) logs) ->
    forall logs',
      time_logs (snd (log_event append_fails fl now username event_type w))
        = Some logs' ->
      Forall (fun r => strptime (Logs.Heure r) <> None) logs'.
Proof.
  intros append_fails fl now username event_type w Hnow Hinv logs'.
  destruct (time_logs w) as [logs|] eqn:Hlogs.
  2: { rewrite (log_event_unconnected _ _ _ _ _ w Hlogs). simpl. congruence. }
  specialize (Hinv logs eq_refl).
  assert (Hnew : Forall (fun r => strptime (Logs.Heure r) <> None)
                        (logs ++ [logged_row now username event_type])).
  { apply Forall_app. split; [assumption |].
    constructor; [| constructor]. simpl.
    rewrite (strptime_strftime _ Hnow). discriminate. }
  rewrite (log_event_run _ _ _ _ _ w logs Hlogs). cbv zeta.
  destruct append_fails.
  { simpl. rewrite Hlogs. intros H. now injection H as <-. }
  destruct (event_type =? "CHECK OUT")%string.
  - match goal with
    | |- context [calculate_daily_hours ?a ?b ?c ?d ?w] =>
        destruct (calculate_returns a b c d w) as (r & w' & Hrun);
        pose proof (calculate_effect a b c d w r w' Hrun) as (Hl & _)
    end.
    rewrite Hrun. simpl snd. simpl in Hl. rewrite Hl.
    intros H. now injection H as <-.
  - simpl. intros H. now injection H as <-.
Qed.

Lemma log_event_keeps_times_well_formed_witness :
  Forall (fun r => strptime (Logs.Heure r) <> None)
         (Day.morning
          ++ [logged_row (mk_reading 19844 "2024-05-01" (mk 13 0 0))
                         "alice" "CHECK IN"]).
Proof.
  apply (log_event_keeps_times_well_formed false no_faults
           (mk_reading 19844 "2024-05-01" (mk 13 0 0)) "alice" "CHECK IN"
           Day.at_noon).
  - unfold valid. simpl. lia.
  - intros logs H. injection H as <-.
    repeat constructor; vm_compute; discriminate.
  - vm_compute. reflexivity.
Defined.

(** ** [take_break] *)

Section TakeBreak.

Lemma take_break_event_kind user_logs :
  take_break_event user_logs = "BREAK START"
  \/ take_break_event user_logs = "BREAK END".
Proof.
  unfold take_break_event.
  destruct (find is_break_mark (rev user_logs)) as [last_break|]; [| now left].
  destruct (Logs.Evenement last_break =? "BREAK END")%string; auto.
Qed.


(** Rows that are ignored by the scan and whose time parses can be
    dropped without changing its outcome. *)
Lemma scan_drop_parsed_marks today l : forall st,
  scan today st
    (filter (fun r => negb (is_break_mark r
                            && match strptime (Logs.Heure r) with
                               | Some _ => true
                               | None => false
                               end)) l)
  = scan today st l.
Proof.
  induction l as [|r l IH]; intros st; simpl; [reflexivity |].
  destruct (is_break_mark r) eqn:E; simpl.
  - rewrite (step_break_mark today st r E).
    destruct (strptime (Logs.Heure r)) eqn:Ep; simpl.
    + apply IH.
    + rewrite (step_break_mark today st r E), Ep. reflexivity.
  - destruct (step today st r); [apply IH | reflexivity].
Qed.

Lemma worked_seconds_snoc_mark today l r :
  is_break_mark r = true -> strptime (Logs.Heure r) <> None ->
  worked_seconds today (l ++ [r]) = worked_seconds today l.
Proof.
  intros Hr Hp.
  set (p := fun r => negb (is_break_mark r
                           && match strptime (Logs.Heure r) with
                              | Some _ => true
                              | None => false
                              end)).
  assert (Hdrop : forall l', worked_seconds today (filter p l')
                             = worked_seconds today l').
  { intros l'. unfold worked_seconds.
    now rewrite sort_filter, (scan_drop_parsed_marks today). }
  rewrite <- (Hdrop (l ++ [r])), <- (Hdrop l), filter_app. simpl.
  unfold p at 2. rewrite Hr.
  destruct (strptime (Logs.Heure r)); [| congruence].
  simpl. now rewrite app_nil_r.
Qed.

End TakeBreak.

Section TakeBreakRun.

Variables (read_fails append_fails : bool) (fl : faults) (now : reading).
Variable author : string.

Lemma take_break_run w :
  take_break read_fails append_fails fl now author w =
  match time_logs w with
  | None => (Raised AttributeError, w)
  | Some logs =>
      let w1 := record_call (Get_all_records Logs_sheet) w in
      if read_fails then (Raised APIError, w1) else
      log_event append_fails fl now author
        (take_break_event
           (filter (fun log => (Logs.Nom log =? author)%string) logs)) w1
  end.
Proof.
  unfold take_break, bind, logs_get_all_records.
  destruct (time_logs w); [| reflexivity].
  now destruct read_fails.
Qed.

(** A successful [take_break] appends one row, of the kind chosen from the
    rows of the author, and touches nothing else. *)
Lemma take_break_success w w' :
  take_break read_fails append_fails fl now author w = (Returned true, w') ->
  exists logs,
    time_logs w = Some logs /\
    time_logs w' =
      Some (logs ++ [logged_row now author
                       (take_break_event
                          (filter (fun log => (Logs.Nom log =? author)%string)
                                  logs))]) /\
    daily_totals w' = daily_totals w.
Proof.
  rewrite take_break_run.
  destruct (time_logs w) as [logs|] eqn:Hlogs; [| discriminate].
  cbv zeta. destruct read_fails; [discriminate |].
  rewrite (log_event_run _ _ _ _ _ _ logs) by (simpl; exact Hlogs).
  cbv zeta. destruct append_fails; [discriminate |].
  set (k := take_break_event _).
  assert (Hk : (k =? "CHECK OUT")%string = false).
  { destruct (take_break_event_kind
                (filter (fun log => (Logs.Nom log =? author)%string) logs))
      as [H|H]; subst k; now rewrite H. }
  rewrite Hk. intros H. injection H as <-. exists logs. simpl. auto.
Qed.

End TakeBreakRun.





(** X12. A break recorded through the bot has no effect on the hours
    computed: after a successful [take_break], the seconds worked by the
    author, on any day, are what they were before. *)
Theorem recorded_break_leaves_total_unchanged :
  forall rf af fl now author w w',
    valid (time_of_day now) ->
    take_break rf af fl now author w = (Returned true, w') ->
    forall today date_str,
      worked_seconds today (user_records author date_str w')
      = worked_seconds today (user_records author date_str w).
Proof.
  intros rf af fl now author w w' Hnow Hrun today d.
  destruct (take_break_success _ _ _ _ _ _ _ Hrun) as (logs & Hl & Hl' & _).
  unfold user_records. rewrite Hl, Hl', filter_app. simpl.
  destruct (selects author d (logged_row now author _)).
  - apply worked_seconds_snoc_mark.
    + unfold is_break_mark. simpl.
      destruct (take_break_event_kind
                  (filter (fun log => (Logs.Nom log =? author)%string) logs))
        as [H|H]; rewrite H; reflexivity.
    + simpl. rewrite (strptime_strftime _ Hnow). discriminate.
  - now rewrite app_nil_r.
Qed.

Lemma recorded_break_leaves_total_unchanged_witness :
  worked_seconds 19844
    (user_records "alice" "2024-05-01"
       (snd (take_break false false no_faults
               (mk_reading 19844 "2024-05-01" (mk 10 0 0)) "alice"
               Day.after_noon)))
  = worked_seconds 19844 (user_records "alice" "2024-05-01" Day.after_noon).
Proof.
  apply (recorded_break_leaves_total_unchanged false false no_faults
           (mk_reading 19844 "2024-05-01" (mk 10 0 0)) "alice" Day.after_noon).
  - unfold valid. simpl. lia.
  - vm_compute. reflexivity.
Defined.

(** ** What the summary table holds after an aggregation *)

Section Summary.

Variables (username date_str value : string).

Lemma find_set_first entries entries' :
  set_first username date_str value entries = Some entries' ->
  find (matches username date_str) entries'
  = Some (Totaux.mk username date_str value).
Proof.
  revert entries'. induction entries as [|e l IH]; intros entries' H;
    simpl in *; [discriminate |].
  destruct (matches username date_str e) eqn:Hm.
  - injection H as <-. simpl.
    rewrite (matches_eq username date_str value e Hm), matches_refl.
    reflexivity.
  - destruct (set_first username date_str value l) as [l'|]; [| discriminate].
    injection H as <-. simpl. rewrite Hm. now apply IH.
Qed.

Lemma find_upsert totals :
  find (matches username date_str) (upsert username date_str value totals)
  = Some (Totaux.mk username date_str value).
Proof.
  unfold upsert.
  destruct (set_first username date_str value totals) as [totals'|] eqn:E.
  - now apply (find_set_first totals).
  - apply set_first_none_rows in E. unfold rows_of in E.
    induction totals as [|e l IH]; simpl in *.
    + now rewrite matches_refl.
    + destruct (matches username date_str e); [discriminate | now apply IH].
Qed.

(** The rows of another user or day are not touched by the upsert. *)
Lemma upsert_other_key username' date_str' totals :
  (username', date_str') <> (username, date_str) ->
  rows_of username' date_str' (upsert username date_str value totals)
  = rows_of username' date_str' totals.
Proof.
  intros Hne.
  assert (Hnew : matches username' date_str'
                   (Totaux.mk username date_str value) = false).
  { unfold matches. simpl. apply andb_false_iff.
    destruct (String.eqb_spec username username') as [->|];
      destruct (String.eqb_spec date_str date_str') as [->|]; auto.
    congruence. }
  unfold upsert, rows_of.
  destruct (set_first username date_str value totals) as [totals'|] eqn:E.
  - revert totals' E. induction totals as [|e l IH]; intros totals' E;
      simpl in *; [discriminate |].
    destruct (matches username date_str e) eqn:Hm.
    + injection E as <-. simpl.
      rewrite (matches_eq username date_str value e Hm), Hnew.
      assert (He : e = Totaux.mk username date_str (Totaux.Heures e)).
      { unfold matches in Hm. apply andb_true_iff in Hm.
        destruct Hm as [H1 H2]. apply String.eqb_eq in H1, H2.
        destruct e as [n d h]. simpl in *. now subst. }
      rewrite He. unfold matches in *. simpl in *. now rewrite Hnew.
    + destruct (set_first username date_str value l) as [l'|]; [| discriminate].
      injection E as <-. simpl. now rewrite (IH l' eq_refl).
  - rewrite filter_app. simpl. rewrite Hnew. now rewrite app_nil_r.
Qed.

End Summary.

(** X13. The status command shows what the aggregation wrote: after
    [calculate_daily_hours] has returned a duration for a user and day, the
    summary row [status] looks up for them holds that duration. *)
Theorem status_shows_aggregated_total :
  forall fl today username date_str w value w',
    calculate_daily_hours fl today username date_str w
      = (Returned (Some value), w') ->
    exists daily_records,
      daily_totals w' = Some daily_records /\
      status_today_total username date_str daily_records
      = Some (Totaux.mk username date_str value).
Proof.
  intros fl today username date_str w value w' Hrun.
  destruct (calculate_effect fl today username date_str w _ _ Hrun)
    as (_ & (totals & total & _ & Ht' & _) & _).
  eexists. split; [exact Ht' |]. apply find_upsert.
Qed.

Lemma status_shows_aggregated_total_witness :
  exists daily_records,
    daily_totals Day.after_noon = Some daily_records /\
    status_today_total "alice" "2024-05-01" daily_records
    = Some (Totaux.mk "alice" "2024-05-01" "3h00m00s").
Proof.
  apply (status_shows_aggregated_total no_faults 19844 "alice" "2024-05-01"
           Day.at_noon "3h00m00s" Day.after_noon).
  vm_compute. reflexivity.
Defined.

(** X15. The day on which the aggregation runs plays no part: with the
    same tables and the same faults, [calculate_daily_hours] returns the same
    value and leaves the same tables whatever [date.today()] is. *)
Theorem result_independent_of_today :
  forall fl today today' username date_str w,
    calculate_daily_hours fl today username date_str w
    = calculate_daily_hours fl today' username date_str w.
Proof.
  intros fl today today' username date_str w.
  destruct (time_logs w) as [logs|] eqn:Hlogs;
    [| unfold calculate_daily_hours; now rewrite Hlogs].
  destruct (daily_totals w) as [totals|] eqn:Htotals;
    [| unfold calculate_daily_hours; now rewrite Hlogs, Htotals].
  rewrite !(calculate_connected _ _ _ _ w logs totals Hlogs Htotals).
  rewrite !(guarded_run _ _ _ _ w logs totals Hlogs Htotals). cbv zeta.
  destruct (logs_read_fails fl); [reflexivity |].
  destruct (filter (selects username date_str) logs) as [|r rs];
    [reflexivity |].
  now rewrite (worked_seconds_today today today').
Qed.

(** X16. An aggregation for one user and day never changes the summary
    rows of another user or day. *)
Theorem other_summaries_untouched :
  forall fl today username date_str w totals username' date_str',
    daily_totals w = Some totals ->
    (username', date_str') <> (username, date_str) ->
    exists totals',
      daily_totals (snd (calculate_daily_hours fl today username date_str w))
        = Some totals' /\
      rows_of username' date_str' totals' = rows_of username' date_str' totals.
Proof.
  intros fl today username date_str w totals username' date_str' Ht Hne.
  destruct (calculate_returns fl today username date_str w) as (r & w' & Hrun).
  rewrite Hrun. simpl snd.
  destruct (calculate_effect fl today username date_str w r w' Hrun)
    as (_ & Heff & _).
  destruct r as [value|].
  - destruct Heff as (totals0 & total & Ht0 & Ht' & _).
    rewrite Ht in Ht0. injection Ht0 as <-.
    eexists. split; [exact Ht' |]. now apply upsert_other_key.
  - exists totals. split; [congruence | reflexivity].
Qed.

Lemma other_summaries_untouched_witness :
  exists totals',
    daily_totals
      (snd (calculate_daily_hours no_faults 19844 "alice" "2024-05-01"
              Day.at_noon))
      = Some totals' /\
    rows_of "bob" "2024-05-01" totals'
    = rows_of "bob" "2024-05-01" [Totaux.mk "bob" "2024-05-01" "8h00m00s"].
Proof.
  apply other_summaries_untouched; [reflexivity | discriminate].
Defined.

(** X17. The upsert stops at the first summary row of the user and day:
    when the table already holds several rows for them, a successful
    aggregation overwrites the first and leaves the later ones as they
    were. *)
Theorem duplicate_summaries_keep_stale_rows :
  forall fl today username date_str w value w' totals first later,
    daily_totals w = Some totals ->
    rows_of username date_str totals = first :: later ->
    calculate_daily_hours fl today username date_str w
      = (Returned (Some value), w') ->
    exists totals',
      daily_totals w' = Some totals' /\
      rows_of username date_str totals'
      = Totaux.mk username date_str value :: later /\
      List.length totals' = List.length totals.
Proof.
  intros fl today username date_str w value w' totals first later
         Ht Hrows Hrun.
  destruct (calculate_effect fl today username date_str w _ _ Hrun)
    as (_ & (totals0 & total & Ht0 & Ht' & _) & _).
  rewrite Ht in Ht0. injection Ht0 as <-.
  eexists. split; [exact Ht' |]. split.
  - now rewrite upsert_rows, Hrows.
  - unfold upsert.
    destruct (set_first username date_str value totals) as [totals'|] eqn:E.
    + clear - E. revert totals' E.
      induction totals as [|e l IH]; intros totals' E; simpl in *;
        [discriminate |].
      destruct (matches username date_str e); [now injection E as <- |].
      destruct (set_first username date_str value l) as [l'|];
        [| discriminate].
      injection E as <-. simpl. now rewrite (IH l' eq_refl).
    + apply set_first_none_rows in E. congruence.
Qed.

Lemma duplicate_summaries_keep_stale_rows_witness :
  exists totals',
    daily_totals
      (snd (calculate_daily_hours no_faults 19844 "alice" "2024-05-01"
              (mk_world (Some Day.morning)
                 (Some [Totaux.mk "alice" "2024-05-01" "1h00m00s";
                        Totaux.mk "bob" "2024-05-01" "8h00m00s";
                        Totaux.mk "alice" "2024-05-01" "2h00m00s"]) [])))
      = Some totals' /\
    rows_of "alice" "2024-05-01" totals'
    = [Totaux.mk "alice" "2024-05-01" "3h00m00s";
       Totaux.mk "alice" "2024-05-01" "2h00m00s"] /\
    List.length totals'
    = List.length [Totaux.mk "alice" "2024-05-01" "1h00m00s";
                   Totaux.mk "bob" "2024-05-01" "8h00m00s";
                   Totaux.mk "alice" "2024-05-01" "2h00m00s"].
Proof.
  apply (duplicate_summaries_keep_stale_rows no_faults 19844 "alice"
           "2024-05-01"
           (mk_world (Some Day.morning)
              (Some [Totaux.mk "alice" "2024-05-01" "1h00m00s";
                     Totaux.mk "bob" "2024-05-01" "8h00m00s";
                     Totaux.mk "alice" "2024-05-01" "2h00m00s"]) [])
           "3h00m00s"
           (snd (calculate_daily_hours no_faults 19844 "alice" "2024-05-01"
                   (mk_world (Some Day.morning)
                      (Some [Totaux.mk "alice" "2024-05-01" "1h00m00s";
                             Totaux.mk "bob" "2024-05-01" "8h00m00s";
                             Totaux.mk "alice" "2024-05-01" "2h00m00s"]) [])))
           [Totaux.mk "alice" "2024-05-01" "1h00m00s";
            Totaux.mk "bob" "2024-05-01" "8h00m00s";
            Totaux.mk "alice" "2024-05-01" "2h00m00s"]
           (Totaux.mk "alice" "2024-05-01" "1h00m00s")
           [Totaux.mk "alice" "2024-05-01" "2h00m00s"]).
  - reflexivity.
  - reflexivity.
  - vm_compute. reflexivity.
Defined.

(** ** [load_config] *)

Section LoadConfig.

Import Config.

Variable V : Type.

Lemma get_cons {A} (k k0 : string) (v0 : A) d :
  get k ((k0, v0) :: d) = if (k0 =? k)%string then Some v0 else get k d.
Proof.
  unfold get. simpl. now destruct (k0 =? k)%string.
Qed.

Lemma get_set {A} (k k' : string) (v : A) d :
  get k (set k' v d) = if (k' =? k)%string then Some v else get k d.
Proof.
  induction d as [|[k0 v0] d IH]; simpl.
  - now rewrite get_cons.
  - destruct (String.eqb_spec k0 k') as [->|Hne].
    + rewrite !get_cons. now destruct (k' =? k)%string.
    + rewrite !get_cons, IH.
      destruct (String.eqb_spec k0 k) as [->|]; [| reflexivity].
      destruct (String.eqb_spec k' k); [congruence | reflexivity].
Qed.

Lemma get_absent {A} (k : string) (d : dict A) :
  ~ In k (map fst d) -> get k d = None.
Proof.
  induction d as [|[k0 v0] d IH]; simpl; intros H; [reflexivity |].
  rewrite get_cons.
  destruct (String.eqb_spec k0 k); [tauto | apply IH; tauto].
Qed.

(** [update] on items with distinct keys: an item of the update wins, a
    key it does not have keeps its value. *)
Lemma get_update {A} (k : string) (items : dict A) : forall d,
  NoDup (map fst items) ->
  get k (update d items) =
  match get k items with
  | Some v => Some v
  | None => get k d
  end.
Proof.
  unfold update.
  induction items as [|[k1 v1] items IH]; intros d Hnd; simpl;
    [reflexivity |].
  inversion Hnd as [|? ? Hnotin Hnd']; subst.
  rewrite (IH _ Hnd'), get_cons, get_set.
  destruct (String.eqb_spec k1 k) as [->|]; [| reflexivity].
  now rewrite (get_absent k items Hnotin).
Qed.

Lemma filter_keys (p : string * option V -> bool) (items : dict (option V)) k :
  In k (map fst (filter p items)) -> In k (map fst items).
Proof.
  induction items as [|item items IH]; simpl; [tauto |].
  destruct (p item); simpl; tauto.
Qed.

Lemma filter_NoDup (p : string * option V -> bool) (items : dict (option V)) :
  NoDup (map fst items) -> NoDup (map fst (filter p items)).
Proof.
  induction items as [|item items IH]; simpl; intros H; [constructor |].
  inversion H as [|? ? Hnotin H']; subst.
  destruct (p item); simpl; [| now apply IH].
  constructor; [| now apply IH].
  intros Hin. apply Hnotin. now apply (filter_keys p).
Qed.

Lemma get_filter_not_None (k : string) (items : dict (option V)) :
  NoDup (map fst items) ->
  get k (filter is_not_None items) =
  match get k items with
  | Some (Some v) => Some (Some v)
  | _ => None
  end.
Proof.
  induction items as [|[k1 v1] items IH]; intros H; [reflexivity |].
  inversion H as [|? ? Hnotin H']; subst.
  cbn [filter]. unfold is_not_None at 1. cbn [snd].
  destruct v1 as [v|]; rewrite ?get_cons, (IH H').
  - destruct (k1 =? k)%string; reflexivity.
  - destruct (String.eqb_spec k1 k) as [->|]; [| reflexivity].
    now rewrite (get_absent k items Hnotin).
Qed.

End LoadConfig.

(** X14. [load_config] gives the file precedence over the environment,
    except for nulls: a key the file sets to a non-null value has that
    value, any other key has the value of the environment; the two keys
    DISCORD_TOKEN and SHEET_URL are always present, and without a file the
    configuration is the environment's. *)
Theorem load_config_precedence :
  forall (V : Type) (getenv : string -> option V)
         (file_config : Config.dict (option V)) (k : string),
    NoDup (map fst file_config) ->
    let env := [("DISCORD_TOKEN", getenv "DISCORD_TOKEN");
                ("SHEET_URL", getenv "SHEET_URL")] in
    Config.load_config getenv Config.Missing = Returned env /\
    exists config,
      Config.load_config getenv (Config.Object file_config) = Returned config /\
      Config.get k config =
        match Config.get k file_config with
        | Some (Some v) => Some (Some v)
        | _ => Config.get k env
        end /\
      Config.get "DISCORD_TOKEN" config <> None /\
      Config.get "SHEET_URL" config <> None.
Proof.
  intros V getenv file_config k Hnd env.
  split; [reflexivity |].
  eexists. split; [reflexivity |].
  assert (Hget : forall k',
             Config.get k'
               (Config.update env (filter Config.is_not_None file_config)) =
             match Config.get k' file_config with
             | Some (Some v) => Some (Some v)
             | _ => Config.get k' env
             end).
  { intros k'.
    rewrite get_update by now apply filter_NoDup.
    rewrite get_filter_not_None by assumption.
    destruct (Config.get k' file_config) as [[v|]|]; reflexivity. }
  split; [apply Hget |].
  split; rewrite Hget.
  - destruct (Config.get "DISCORD_TOKEN" file_config) as [[v|]|];
      discriminate.
  - destruct (Config.get "SHEET_URL" file_config) as [[v|]|]; discriminate.
Qed.

Lemma load_config_precedence_witness :
  let getenv := fun k => if (k =? "SHEET_URL")%string
                         then Some "https://env.example/sheet" else None in
  let env := [("DISCORD_TOKEN", getenv "DISCORD_TOKEN");
              ("SHEET_URL", getenv "SHEET_URL")] in
  Config.load_config getenv Config.Missing = Returned env /\
  exists config,
    Config.load_config getenv
      (Config.Object [("SHEET_URL", None); ("DISCORD_TOKEN", Some "abc")])
      = Returned config /\
    Config.get "SHEET_URL" config =
      match Config.get "SHEET_URL"
              [("SHEET_URL", None); ("DISCORD_TOKEN", Some "abc")] with
      | Some (Some v) => Some (Some v)
      | _ => Config.get "SHEET_URL" env
      end /\
    Config.get "DISCORD_TOKEN" config <> None /\
    Config.get "SHEET_URL" config <> None.
Proof.
  intros getenv env.
  apply (load_config_precedence string getenv
           [("SHEET_URL", None); ("DISCORD_TOKEN", Some "abc")] "SHEET_URL").
  repeat constructor; simpl; intuition discriminate.
Defined.
